(** * Farm Waste -> Fertilizer Advisor: a shallow embedding of [app.py]

    The Streamlit script is embedded piece by piece, keeping the names of
    the script's functions and variables.

    - Python [str] values are UTF-8 byte strings ([string]).
    - Python [float] values (quantities, yields) are binary64 primitive
      floats, so [qty * (yield_pct / 100.0)] rounds as it does in Python.
    - Similarity scores only ever get compared; they are rationals ([Q]).
    - rapidfuzz ([fuzz.WRatio], [process.extractOne], [process.extract]),
      [float(str)] and [str(float)] are library code: the scorer and the two
      conversions are section variables, the two [process] functions are
      modelled from their documented behaviour.
    - The script reads and writes [waste_data.csv] and draws widgets: a
      state-and-exception monad carries the file, the widgets drawn and the
      trace of rapidfuzz calls.  Static layout calls (titles, headers,
      columns, expanders, input widgets) draw nothing that depends on the
      data and are left out. *)

From Stdlib Require Import ZArith QArith Lqa String Ascii List Bool.
From Stdlib Require Import DecimalString.
From Stdlib Require Import Floats.PrimFloat Floats.FloatOps Floats.SpecFloat.
From Stdlib Require Import Floats.FloatAxioms.
From stdpp Require Import base option list sorting gmap strings.
Import ListNotations.

Local Open Scope string_scope.
Local Open Scope list_scope.

(** ** Python strings *)

Module Str.

(** One-byte white space: TAB..CR, FS..US and the space. *)
Definition is_space1 (a : ascii) : bool :=
  let n := N_of_ascii a in
  ((9 <=? n) && (n <=? 13) || (28 <=? n) && (n <=? 32))%N.

(** Two-byte white space: U+0085 and U+00A0. *)
Definition is_space2 (a b : ascii) : bool :=
  let m := N_of_ascii b in
  (N_of_ascii a =? 194)%N && ((m =? 133) || (m =? 160))%N.

(** Three-byte white space: U+1680, U+2000..U+200A, U+2028, U+2029,
    U+202F, U+205F and U+3000. *)
Definition is_space3 (a b c : ascii) : bool :=
  let x := N_of_ascii a in
  let y := N_of_ascii b in
  let z := N_of_ascii c in
  ((x =? 225) && (y =? 154) && (z =? 128)
   || (x =? 226) && (y =? 128)
      && ((128 <=? z) && (z <=? 138) || (z =? 168) || (z =? 169) || (z =? 175))
   || (x =? 226) && (y =? 129) && (z =? 159)
   || (x =? 227) && (y =? 128) && (z =? 128))%N.

Section Leading.
Variable p1 : ascii -> bool.
Variable p2 : ascii -> ascii -> bool.
Variable p3 : ascii -> ascii -> ascii -> bool.

(** Drops the white-space characters a byte sequence starts with. *)
Fixpoint drop_leading (s : list ascii) : list ascii :=
  match s with
  | [] => []
  | a :: s1 =>
      if p1 a then drop_leading s1
      else match s1 with
           | [] => s
           | b :: s2 =>
               if p2 a b then drop_leading s2
               else match s2 with
                    | [] => s
                    | c :: s3 => if p3 a b c then drop_leading s3 else s
                    end
           end
  end.
End Leading.

Definition lstrip (s : string) : string :=
  string_of_list_ascii
    (drop_leading is_space1 is_space2 is_space3 (list_ascii_of_string s)).

(** From the right the bytes of a character come last byte first. *)
Definition rstrip (s : string) : string :=
  string_of_list_ascii
    (rev (drop_leading is_space1
            (fun b a => is_space2 a b)
            (fun c b a => is_space3 a b c)
            (rev (list_ascii_of_string s)))).

(** [s.strip()] *)
Definition strip (s : string) : string := rstrip (lstrip s).

(** [s.replace(' ', '_')] *)
Fixpoint replace_space (s : string) : string :=
  match s with
  | EmptyString => EmptyString
  | String a s' =>
      String (if Ascii.eqb a " " then "_"%char else a) (replace_space s')
  end.

(** [sep.join(lines)] *)
Definition join (sep : string) (lines : list string) : string :=
  String.concat sep lines.

(** Truth value of a [str]: non-empty. *)
Definition truthy (s : string) : bool :=
  match s with EmptyString => false | String _ _ => true end.

End Str.

(** ** Python floats *)

Module Float.

Local Open Scope float_scope.

(** Truth value of a [float]: different from zero (a NaN is true). *)
Definition truthy (x : float) : bool := negb (x =? 0).

(** [x > 0] *)
Definition positive (x : float) : bool := 0 <? x.

(** Nearest integer to [n / 2^k], ties to even. *)
Definition round_shift (n : Z) (k : Z) : Z :=
  let d := Z.pow 2 k in
  let q := Z.div n d in
  let r := Z.modulo n d in
  match Z.compare (2 * r) d with
  | Lt => q
  | Gt => q + 1
  | Eq => if Z.even q then q else q + 1
  end%Z.

Definition digits (n : Z) : string :=
  NilZero.string_of_uint (N.to_uint (Z.to_N n)).

(** A count of hundredths written with two decimals. *)
Definition hundredths (h : Z) : string :=
  let c := (h mod 100)%Z in
  digits (h / 100) +:+ "." +:+ (if (c <? 10)%Z then "0" else "") +:+ digits c.

(** [f"{x:.2f}"]: the decimal nearest to the exact value of [x], ties to
    even. *)
Definition format_2f (x : float) : string :=
  match Prim2SF x with
  | S754_nan => "nan"
  | S754_infinity s => if s then "-inf" else "inf"
  | S754_zero s => if s then "-0.00" else "0.00"
  | S754_finite s m e =>
      (if s then "-" else "") +:+
      hundredths (if (0 <=? e)%Z then Z.pos m * 100 * Z.pow 2 e
                  else round_shift (Z.pos m * 100) (- e))
  end.

End Float.

(** ** The dataset *)

(** A cell of the data frame: text, or a number (a blank cell is NaN). *)
Inductive value :=
| VStr (s : string)
| VNum (x : float).

(** A row of [waste_data.csv].  The "Waste Type" column holds the names and
    is text; the other columns ("Best Use", "Compost Time", "Nutrient",
    "Tips", "Yield_pct", ...) are whatever the file has. *)
Record row := Row {
  waste_type : string;
  fields : gmap string value
}.

Abbreviation DataFrame := (list row).

(** [df.empty] *)
Definition empty (df : DataFrame) : bool :=
  match df with [] => true | _ :: _ => false end.

(** [row.to_dict()] *)
Definition to_dict (r : row) : gmap string value :=
  <["Waste Type" := VStr (waste_type r)]> (fields r).

(** [row.get(key, default)] on the dict of a row. *)
Definition get (d : gmap string value) (key : string) (default : value) : value :=
  match d !! key with
  | Some v => v
  | None => default
  end.

(** The columns of a frame besides "Waste Type". *)
Definition columns (df : DataFrame) : gset string :=
  union_list (map (fun r => dom (fields r)) df).

(** A row widened to the given columns: the cells it lacks are NaN. *)
Definition reindex (cols : gset string) (r : row) : row :=
  {| waste_type := waste_type r;
     fields := fields r ∪ gset_to_gmap (VNum nan) cols |}.

(** [df.append(new_row, ignore_index=True)], as pandas before 2.0 has it:
    the new row goes last; every row gets the union of the columns. *)
Definition df_append (df : DataFrame) (new_row : row) : DataFrame :=
  let cols := columns df ∪ dom (fields new_row) in
  map (reindex cols) (df ++ [new_row]).

(** [list(df["Waste Type"].values)] *)
Definition waste_list_of (df : DataFrame) : list string := map waste_type df.

(** ** The session: file, widgets, library calls *)

Inductive call :=
| extractOne_call (query : string) (choices : list string)
| extract_call (query : string) (choices : list string) (limit : nat).

(** What the script draws.  A text that interpolates a similarity score
    carries the score itself. *)
Inductive widget :=
| st_error (body : string)
| st_subheader_matched (matched_type : string) (match_score : option Q)
| st_markdown (body : string)
| st_info (body : string)
| st_caption (body : string)
| st_download_button (label data file_name : string)
| st_warning (body : string)
| st_write_suggestion (name : string) (score : Q)
| st_success (body : string).

Inductive exn :=
| IndexError.

Inductive res (A : Type) :=
| Ok (a : A)
| Raise (e : exn).
Arguments Ok {A} a.
Arguments Raise {A} e.

Record session := Session {
  file : option DataFrame;   (* waste_data.csv, when it exists *)
  drawn : list widget;       (* widgets drawn so far, oldest first *)
  calls : list call          (* rapidfuzz calls so far, oldest first *)
}.

Definition M (A : Type) : Type := session -> res (A * session).

#[global] Instance M_ret : MRet M := fun A a s => Ok (a, s).

#[global] Instance M_bind : MBind M := fun A B k m s =>
  match m s with
  | Ok (a, s') => k a s'
  | Raise e => Raise e
  end.

Definition raise {A} (e : exn) : M A := fun _ => Raise e.

(** The session after one more widget, one more library call. *)
Definition log_widget (w : widget) (s : session) : session :=
  {| file := file s; drawn := drawn s ++ [w]; calls := calls s |}.

Definition log_call (c : call) (s : session) : session :=
  {| file := file s; drawn := drawn s; calls := calls s ++ [c] |}.

Definition draw (w : widget) : M unit := fun s => Ok (tt, log_widget w s).

Definition called (c : call) : M unit := fun s => Ok (tt, log_call c s).

Definition read_csv : M (option DataFrame) := fun s => Ok (file s, s).

(** [df.to_csv(DATA_CSV, index=False)] *)
Definition to_csv (df : DataFrame) : M unit := fun s =>
  Ok (tt, {| file := Some df; drawn := drawn s; calls := calls s |}).

(** [for x in xs: body(x)] *)
Fixpoint for_each {A} (xs : list A) (body : A -> M unit) : M unit :=
  match xs with
  | [] => mret tt
  | x :: xs' => body x ≫= fun _ => for_each xs' body
  end.

(** What the user entered in the widgets, and the clock. *)
Record inputs := Inputs {
  user_text : string;
  qty : float;
  selected : string;
  now : string;              (* datetime.now().strftime('%Y-%m-%d %H:%M:%S') *)
  new_waste : string;
  new_best_use : string;
  new_compost : string;
  new_nutrient : string;
  new_tips : string;
  new_yield : string;
  add_clicked : bool         (* st.button("Add new waste type") *)
}.

Definition DATA_CSV : string := "waste_data.csv".

(** The separator of [format_report], written ["\\n"] in the script: a
    backslash followed by the letter n. *)
Definition backslash_n : string :=
  String (ascii_of_nat 92) (String "n" EmptyString).

(** The line feed. *)
Definition newline : string := String (ascii_of_nat 10) EmptyString.

Module App.

Section Advisor.

(** [fuzz.WRatio] *)
Variable WRatio : string -> string -> Q.
(** [float(s)] on a [str]; [None] when it raises. *)
Variable float_of_str : string -> option float.
(** [str(x)] on a [float]. *)
Variable str_of_float : float -> string.

(** *** rapidfuzz *)

(** The loop of [process.extractOne]: a choice replaces the result only
    when its score is strictly greater. *)
Fixpoint extractOne_from (query : string) (choices : list string) (i : nat)
  (result : option (string * Q * nat)) : option (string * Q * nat) :=
  match choices with
  | [] => result
  | choice :: rest =>
      let score := WRatio query choice in
      extractOne_from query rest (S i)
        match result with
        | None => Some (choice, score, i)
        | Some (_, best, _) =>
            if negb (Qle_bool score best) then Some (choice, score, i)
            else result
        end
  end.

Definition extractOne (query : string) (choices : list string)
  : option (string * Q * nat) :=
  extractOne_from query choices 0 None.

(** [(choice, score, index)] for every choice, in order. *)
Fixpoint scored_from (query : string) (choices : list string) (i : nat)
  : list (string * Q * nat) :=
  match choices with
  | [] => []
  | choice :: rest => (choice, WRatio query choice, i) :: scored_from query rest (S i)
  end.

(** Puts [x] in front of the first entry that does not score strictly
    higher. *)
Fixpoint insert_ranked (x : string * Q * nat) (l : list (string * Q * nat))
  : list (string * Q * nat) :=
  match l with
  | [] => [x]
  | y :: l' =>
      if negb (Qle_bool (snd (fst y)) (snd (fst x))) then y :: insert_ranked x l'
      else x :: l
  end.

(** Stable sort by decreasing score. *)
Fixpoint sort_ranked (l : list (string * Q * nat)) : list (string * Q * nat) :=
  match l with
  | [] => []
  | x :: l' => insert_ranked x (sort_ranked l')
  end.

(** [process.extract(query, choices, scorer=fuzz.WRatio, limit=limit)] *)
Definition extract (query : string) (choices : list string) (limit : nat)
  : list (string * Q * nat) :=
  firstn limit (sort_ranked (scored_from query choices 0)).

Definition process_extractOne (query : string) (choices : list string)
  : M (option (string * Q * nat)) :=
  called (extractOne_call query choices);;
  mret (extractOne query choices).

Definition process_extract (query : string) (choices : list string) (limit : nat)
  : M (list (string * Q * nat)) :=
  called (extract_call query choices limit);;
  mret (extract query choices limit).

(** *** Matching *)

Definition find_best_match (user_input : string) (choices : list string)
  (score_cutoff : Q) : M (option string * Q) :=
  res ← process_extractOne user_input choices;
  match res with
  | Some (match_, score, _) =>
      if Qle_bool score_cutoff score then mret (Some match_, score)
      else mret (None, score)
  | None => mret (None, 0%Q)
  end.

(** The default of [score_cutoff]. *)
Definition score_cutoff_default : Q := 50.

(** Lines 58-69: [matched_type] and [match_score]. *)
Definition matching (inp : inputs) (waste_list : list string)
  : M (option string * option Q) :=
  if Str.truthy (selected inp) then mret (Some (selected inp), Some 100%Q)
  else if Str.truthy (Str.strip (user_text inp)) then
    '(mt, score) ← find_best_match (Str.strip (user_text inp)) waste_list
                     score_cutoff_default;
    match mt with
    | Some m => if Str.truthy m then mret (Some m, Some score)
                else mret (None, Some score)
    | None => mret (None, Some score)
    end
  else mret (None, None).

(** *** Recommendation *)

(** [str(v)] as an f-string interpolates a cell. *)
Definition str (v : value) : string :=
  match v with
  | VStr s => s
  | VNum x => str_of_float x
  end.

(** [float(yp)]; [None] when it raises. *)
Definition float_ (yp : value) : option float :=
  match yp with
  | VNum x => Some x
  | VStr s => float_of_str s
  end.

(** Line 73: [df[df["Waste Type"] == matched_type].iloc[0].to_dict()]. *)
Definition waste_row_of (df : DataFrame) (matched_type : string)
  : M (gmap string value) :=
  match filter (fun r => waste_type r = matched_type) df with
  | r :: _ => mret (to_dict r)
  | [] => raise IndexError
  end.

(** Lines 84-88: the yield percentage. *)
Definition yield_pct_of (waste_row : gmap string value) : float :=
  match waste_row !! "Yield_pct" with
  | Some yp =>
      match float_ yp with
      | Some x => x
      | None => 40%float
      end
  | None => 40%float
  end.

(** Lines 81-89: [est_compost]. *)
Definition est_compost_of (waste_row : gmap string value) (qty : float)
  : option float :=
  if Float.truthy qty && Float.positive qty
  then Some (qty * (yield_pct_of waste_row / 100))%float
  else None.

(** Truth value of an optional float: neither [None] nor zero. *)
Definition truthy_opt (x : option float) : bool :=
  match x with
  | Some x => Float.truthy x
  | None => false
  end.

(** The lines [format_report] collects. *)
Definition report_lines (now : string) (wt_row : gmap string value)
  (qty est : option float) : list string :=
  [ "Farm Waste → Fertilizer Advisor Report";
    "Generated: " +:+ now;
    "";
    "Waste Type: " +:+ str (get wt_row "Waste Type" (VStr ""));
    "Best Use: " +:+ str (get wt_row "Best Use" (VStr ""));
    "Compost Time: " +:+ str (get wt_row "Compost Time" (VStr ""));
    "Nutrient: " +:+ str (get wt_row "Nutrient" (VStr ""));
    "Tips: " +:+ str (get wt_row "Tips" (VStr "")) ]
  ++ match qty, est with
     | Some q, Some e =>
         if Float.truthy q && Float.truthy e
         then [ "";
                "Input Quantity: " +:+ Float.format_2f q +:+ " kg";
                "Estimated Compost Output: " +:+ Float.format_2f e +:+ " kg" ]
         else []
     | _, _ => []
     end.

(** Lines 94-108. *)
Definition format_report (now : string) (wt_row : gmap string value)
  (qty est : option float) : string :=
  Str.join backslash_n (report_lines now wt_row qty est).

(** Lines 74-111: the card of the matched row, the estimate and the report. *)
Definition card (waste_row : gmap string value) (matched_type : string)
  (match_score : option Q) (inp : inputs) : M unit :=
  draw (st_subheader_matched matched_type match_score);;
  draw (st_markdown ("**Best Use:** " +:+ str (get waste_row "Best Use" (VStr "-")) +:+ "  "));;
  draw (st_markdown ("**Compost Time:** " +:+ str (get waste_row "Compost Time" (VStr "-")) +:+ "  "));;
  draw (st_markdown ("**Nutrient Type:** " +:+ str (get waste_row "Nutrient" (VStr "-")) +:+ "  "));;
  draw (st_markdown ("**Tips:** " +:+ str (get waste_row "Tips" (VStr "-"))));;
  let est_compost := est_compost_of waste_row (qty inp) in
  match est_compost with
  | Some est =>
      draw (st_info ("Estimated compost output from " +:+ Float.format_2f (qty inp)
                     +:+ " kg input: **" +:+ Float.format_2f est
                     +:+ " kg** (approx; yield "
                     +:+ str_of_float (yield_pct_of waste_row) +:+ "%)."));;
      draw (st_caption "Note: yield is a rough approximation; actual output depends on moisture and method.")
  | None => mret tt
  end;;
  let report_text :=
    format_report (now inp) waste_row
      (if Float.positive (qty inp) then Some (qty inp) else None)
      (if truthy_opt est_compost then est_compost else None) in
  draw (st_download_button "Download advice report (TXT)" report_text
          ("fert_advice_" +:+ Str.replace_space matched_type +:+ ".txt")).

(** Lines 72-111. *)
Definition matched (df : DataFrame) (matched_type : string)
  (match_score : option Q) (inp : inputs) : M unit :=
  waste_row ← waste_row_of df matched_type;
  card waste_row matched_type match_score inp.

(** Lines 113-122. *)
Definition unmatched (waste_list : list string) (inp : inputs) : M unit :=
  if String.eqb (Str.strip (user_text inp)) "" then
    draw (st_info "Type a waste name above to get a recommendation or select from the list.")
  else
    draw (st_warning "No confident match found. Try rephrasing or choose from the list.");;
    suggestions ← process_extract (Str.strip (user_text inp)) waste_list 5;
    match suggestions with
    | [] => mret tt
    | _ :: _ =>
        draw (st_markdown "**Top suggestions:**");;
        for_each suggestions (fun s => draw (st_write_suggestion (fst (fst s)) (snd (fst s))))
    end.

(** Lines 71-122. *)
Definition recommendation (df : DataFrame) (waste_list : list string)
  (matched_type : option string) (match_score : option Q) (inp : inputs)
  : M unit :=
  match matched_type with
  | Some m =>
      if Str.truthy m then matched df m match_score inp
      else unmatched waste_list inp
  | None => unmatched waste_list inp
  end.

(** Lines 58-122: matching, then the recommendation. *)
Definition recommend (df : DataFrame) (inp : inputs) : M unit :=
  let waste_list := waste_list_of df in
  '(matched_type, match_score) ← matching inp waste_list;
  recommendation df waste_list matched_type match_score inp.

(** *** Adding a waste type *)

(** Lines 140-151: [new_row]. *)
Definition new_row_of (inp : inputs) : row :=
  let new_row : gmap string value :=
    <["Tips" := VStr (Str.strip (new_tips inp))]>
      (<["Nutrient" := VStr (Str.strip (new_nutrient inp))]>
         (<["Compost Time" := VStr (Str.strip (new_compost inp))]>
            (<["Best Use" := VStr (Str.strip (new_best_use inp))]> ∅))) in
  {| waste_type := Str.strip (new_waste inp);
     fields :=
       if Str.truthy (Str.strip (new_yield inp)) then
         match float_of_str (Str.strip (new_yield inp)) with
         | Some x => <["Yield_pct" := VNum x]> new_row
         | None => new_row
         end
       else new_row |}.

(** Lines 136-154: the handler of the "Add new waste type" button.  It
    returns the frame bound to [df] afterwards. *)
Definition add_new_waste_type (df : DataFrame) (inp : inputs) : M DataFrame :=
  if negb (Str.truthy (Str.strip (new_waste inp))) then
    draw (st_error "Enter a waste type name.");;
    mret df
  else
    let df := df_append df (new_row_of inp) in
    to_csv df;;
    draw (st_success ("Added '" +:+ Str.strip (new_waste inp)
                      +:+ "' to dataset and saved to " +:+ DATA_CSV
                      +:+ ". Refresh page to see changes."));;
    mret df.

(** *** The script *)

(** Lines 24-29.  The cache of [st.cache_data] is cold. *)
Definition load_dataset : M DataFrame :=
  f ← read_csv;
  match f with
  | None => draw (st_error ("Dataset not found: " +:+ DATA_CSV));; mret []
  | Some df => mret df
  end.

(** One run of the script; [st.stop()] ends it. *)
Definition app (inp : inputs) : M unit :=
  df ← load_dataset;
  if empty df then mret tt
  else
    recommend df inp;;
    if add_clicked inp then add_new_waste_type df inp;; mret tt
    else mret tt.

(** *** Vocabulary of the properties *)

(** [(choice, score, i)] is the best of [choices]: it sits at position
    [i], no choice scores higher and every earlier choice scores strictly
    lower. *)
Definition is_best (query : string) (choices : list string)
  (b : string * Q * nat) : Prop :=
  let '(choice, score, i) := b in
  choices !! i = Some choice /\
  score = WRatio query choice /\
  (forall j c, choices !! j = Some c -> (WRatio query c <= score)%Q) /\
  (forall j c, (j < i)%nat -> choices !! j = Some c -> (WRatio query c < score)%Q).

(** [a] is ranked before [b]: a higher score, or the same score and an
    earlier position. *)
Definition outranks (a b : string * Q * nat) : Prop :=
  (snd (fst b) < snd (fst a))%Q \/
  ((snd (fst a) == snd (fst b))%Q /\ (snd a < snd b)%nat).

(** The yield percentage as the specification words it: the record's
    value when it is present and a valid positive number, else 40.0. *)
Definition spec_yield_pct (waste_row : gmap string value) : float :=
  match waste_row !! "Yield_pct" with
  | Some yp =>
      match float_ yp with
      | Some x => if Float.positive x then x else 40%float
      | None => 40%float
      end
  | None => 40%float
  end.

(** The report as the specification words it: the lines joined by line
    feeds. *)
Definition spec_report (now : string) (wt_row : gmap string value)
  (qty est : option float) : string :=
  Str.join newline (report_lines now wt_row qty est).

End Advisor.

End App.

Import App.

(** ** A sample instance, for running the definitions *)

Module Sample.

Fixpoint common_prefix (a b : string) : nat :=
  match a, b with
  | String x a', String y b' =>
      if Ascii.eqb x y then S (common_prefix a' b') else 0
  | _, _ => 0
  end.

(** A stand-in scorer: the share of the longer string that the common
    prefix covers, as a percentage. *)
Definition WRatio (q c : string) : Q :=
  match Nat.max (String.length q) (String.length c) with
  | O => 100%Q
  | S n => Qmake (100 * Z.of_nat (common_prefix q c)) (Pos.of_succ_nat n)
  end.

(** A stand-in for [float(s)]: it knows three spellings. *)
Definition float_of_str (s : string) : option float :=
  if String.eqb s "55" then Some 55%float
  else if String.eqb s "12.5" then Some 12.5%float
  else if String.eqb s "-5" then Some (-5)%float
  else None.

(** A stand-in for [str(x)]. *)
Definition str_of_float (x : float) : string := Float.format_2f x.

Definition cow_manure : row :=
  {| waste_type := "Cow Manure";
     fields := <["Best Use" := VStr "Compost"]>
                 (<["Compost Time" := VStr "60 days"]>
                    (<["Nutrient" := VStr "Nitrogen"]>
                       (<["Tips" := VStr "Turn weekly"]> ∅))) |}.

Definition banana_peels : row :=
  {| waste_type := "Banana Peels";
     fields := <["Best Use" := VStr "Vermicompost"]>
                 (<["Yield_pct" := VNum 55]> ∅) |}.

Definition rice_husk : row :=
  {| waste_type := "Rice Husk";
     fields := <["Best Use" := VStr "Mulching"]> ∅ |}.

(** A later row that repeats the name "Cow Manure". *)
Definition cow_manure_again : row :=
  {| waste_type := "Cow Manure";
     fields := <["Best Use" := VStr "Biogas"]> ∅ |}.

(** A row whose yield is not positive. *)
Definition spoiled_hay : row :=
  {| waste_type := "Spoiled Hay";
     fields := <["Yield_pct" := VNum (-5)]> ∅ |}.

Definition df : DataFrame :=
  [banana_peels; cow_manure; rice_husk; cow_manure_again; spoiled_hay].

Definition start : session :=
  {| file := Some df; drawn := []; calls := [] |}.

Definition blank : inputs :=
  {| user_text := ""; qty := 0; selected := ""; now := "2024-05-01 10:30:00";
     new_waste := ""; new_best_use := ""; new_compost := "";
     new_nutrient := ""; new_tips := ""; new_yield := "";
     add_clicked := false |}.

Definition typed (text : string) (q : float) : inputs :=
  {| user_text := text; qty := q; selected := ""; now := now blank;
     new_waste := ""; new_best_use := ""; new_compost := "";
     new_nutrient := ""; new_tips := ""; new_yield := "";
     add_clicked := false |}.

Definition picked (name text : string) (q : float) : inputs :=
  {| user_text := text; qty := q; selected := name; now := now blank;
     new_waste := ""; new_best_use := ""; new_compost := "";
     new_nutrient := ""; new_tips := ""; new_yield := "";
     add_clicked := false |}.

Definition adding (name best_use yield : string) : inputs :=
  {| user_text := ""; qty := 0; selected := ""; now := now blank;
     new_waste := name; new_best_use := best_use; new_compost := "";
     new_nutrient := ""; new_tips := ""; new_yield := yield;
     add_clicked := true |}.

Definition names : list string := waste_list_of df.

(** "Cow Manure" picked in the list while the free text says otherwise. *)
Definition pick_cow : inputs := picked "Cow Manure" "banana" 100.

(** Nothing picked, blanks typed. *)
Definition type_blank : inputs := typed "   " 100.

(** The add form with a blank name, and with a name. *)
Definition add_blank : inputs := adding "  " "Mulching" "".

Definition add_straw : inputs := adding " Straw " "Mulching" "55".

(** Free text that matches, and free text that does not. *)
Definition type_cow : inputs := typed " Cow Man " 100.

Definition type_rice : inputs := typed "Rice" 100.

(** "Banana Peels" picked with the quantity left at 0. *)
Definition pick_banana : inputs := picked "Banana Peels" "" 0.

(** The add form with a name the dataset has, and with a yield that is
    no number. *)
Definition add_cow : inputs := adding " Cow Manure " "Fuel" "".

Definition add_lots : inputs := adding "Straw" "Mulching" "lots".

(** A row whose yield is 0. *)
Definition wet_leaves : row :=
  {| waste_type := "Wet Leaves";
     fields := <["Yield_pct" := VNum 0]> ∅ |}.


End Sample.

(** * Properties *)

(** ** Strings and floats on concrete values *)

Example strip_spaces : Str.strip "  cow dung  " = "cow dung".
Proof. reflexivity. Qed.

Example strip_blank : Str.strip "   " = "".
Proof. reflexivity. Qed.

Example strip_nbsp :
  Str.strip (String (ascii_of_nat 194) (String (ascii_of_nat 160) "x ")) = "x".
Proof. reflexivity. Qed.

Example strip_keeps_a_grave :
  Str.strip (String "x" (String (ascii_of_nat 195) (String (ascii_of_nat 160) "")))
  = String "x" (String (ascii_of_nat 195) (String (ascii_of_nat 160) "")).
Proof. reflexivity. Qed.

Example strip_trailing_wide_space :
  Str.strip (String "x" (String (ascii_of_nat 227) (String (ascii_of_nat 128)
               (String (ascii_of_nat 128) (String (ascii_of_nat 194)
               (String (ascii_of_nat 160) ""))))))
  = "x".
Proof. reflexivity. Qed.

Example replace_space_ex : Str.replace_space "Rice Husk" = "Rice_Husk".
Proof. reflexivity. Qed.

Example format_2f_100 : Float.format_2f 100 = "100.00".
Proof. vm_compute. reflexivity. Qed.

Example format_2f_tie : Float.format_2f 0.125 = "0.12".
Proof. vm_compute. reflexivity. Qed.

Example format_2f_tie_up : Float.format_2f 0.375 = "0.38".
Proof. vm_compute. reflexivity. Qed.

Example format_2f_neg : Float.format_2f (-5) = "-5.00".
Proof. vm_compute. reflexivity. Qed.

Example format_2f_nan : Float.format_2f nan = "nan".
Proof. vm_compute. reflexivity. Qed.

Lemma truthy_true s : Str.truthy s = true <-> s <> "".
Proof. destruct s; simpl; split; congruence. Qed.

Lemma truthy_false s : Str.truthy s = false <-> s = "".
Proof. destruct s; simpl; split; congruence. Qed.

Lemma float_neq (x y : float) : PrimFloat.eqb x y = false -> is_nan x = false -> x <> y.
Proof.
  intros Hxy Hx ->. unfold is_nan in Hx.
  rewrite Hxy in Hx. discriminate.
Qed.

(** A float above zero is not zero, so [qty and qty > 0] is [qty > 0]. *)
Lemma positive_truthy (x : float) : Float.positive x = true -> Float.truthy x = true.
Proof.
  unfold Float.positive, Float.truthy.
  rewrite FloatAxioms.ltb_spec, FloatAxioms.eqb_spec.
  change (Prim2SF 0) with (S754_zero false).
  destruct (Prim2SF x) as [[|]|[|]| |[|] m e]; unfold SFltb, SFeqb; simpl; intros H; congruence.
Qed.

Ltac run := unfold mbind, M_bind, mret, M_ret, draw, called, raise, to_csv, read_csv; simpl.

Section Properties.

Variable WRatio : string -> string -> Q.
Variable float_of_str : string -> option float.
Variable str_of_float : float -> string.

Local Abbreviation extractOne_from := (extractOne_from WRatio).
Local Abbreviation extractOne := (extractOne WRatio).
Local Abbreviation extract := (extract WRatio).
Local Abbreviation find_best_match := (find_best_match WRatio).
Local Abbreviation is_best := (is_best WRatio).
Local Abbreviation scored_from := (scored_from WRatio).
Local Abbreviation matching := (matching WRatio).
Local Abbreviation yield_pct_of := (yield_pct_of float_of_str).
Local Abbreviation est_compost_of := (est_compost_of float_of_str).
Local Abbreviation card := (card float_of_str str_of_float).
Local Abbreviation recommendation := (recommendation WRatio float_of_str str_of_float).
Local Abbreviation recommend := (recommend WRatio float_of_str str_of_float).
Local Abbreviation new_row_of := (new_row_of float_of_str).
Local Abbreviation add_new_waste_type := (add_new_waste_type float_of_str).

(** ** [process.extractOne] *)

Lemma strictly_greater (score best : Q) :
  negb (Qle_bool score best) = true <-> (best < score)%Q.
Proof.
  rewrite negb_true_iff, <- not_true_iff_false, Qle_bool_iff.
  split; [apply Qnot_le_lt | apply Qlt_not_le].
Qed.

Lemma not_strictly_greater (score best : Q) :
  negb (Qle_bool score best) = false <-> (score <= best)%Q.
Proof. rewrite negb_false_iff. apply Qle_bool_iff. Qed.

(** The loop keeps the best of the choices seen so far. *)
Lemma extractOne_from_best query seen choices result :
  match result with
  | None => seen = []
  | Some b => is_best query seen b
  end ->
  match extractOne_from query choices (length seen) result with
  | None => seen ++ choices = []
  | Some b => is_best query (seen ++ choices) b
  end.
Proof.
  revert seen result.
  induction choices as [|choice rest IH]; intros seen result Hinv; simpl.
  - rewrite app_nil_r. exact Hinv.
  - replace (seen ++ choice :: rest) with ((seen ++ [choice]) ++ rest)
      by (rewrite <- app_assoc; reflexivity).
    replace (S (length seen)) with (length (seen ++ [choice]))
      by (rewrite length_app; simpl; lia).
    apply IH.
    destruct result as [[[c best] k]|].
    + destruct Hinv as (Hk & Hbest & Hmax & Hfirst).
      destruct (negb (Qle_bool (WRatio query choice) best)) eqn:Hcmp.
      * apply strictly_greater in Hcmp.
        repeat split.
        -- apply list_lookup_middle. reflexivity.
        -- intros j c' Hj.
           destruct (lookup_app_Some seen [choice] j c') as [Hor _].
           destruct (Hor Hj) as [Hs | [_ Hs]].
           ++ apply Qle_trans with best; [eapply Hmax; eauto | apply Qlt_le_weak, Hcmp].
           ++ destruct (j - length seen)%nat; simpl in Hs; [|done].
              injection Hs as <-. apply Qle_refl.
        -- intros j c' Hlt Hj.
           rewrite lookup_app_l in Hj by exact Hlt.
           apply Qle_lt_trans with best; [eapply Hmax; eauto | exact Hcmp].
      * apply not_strictly_greater in Hcmp.
        repeat split.
        -- rewrite lookup_app_l; [exact Hk | eapply lookup_lt_Some; eauto].
        -- exact Hbest.
        -- intros j c' Hj.
           destruct (lookup_app_Some seen [choice] j c') as [Hor _].
           destruct (Hor Hj) as [Hs | [_ Hs]].
           ++ eapply Hmax; eauto.
           ++ destruct (j - length seen)%nat; simpl in Hs; [|done].
              injection Hs as <-. exact Hcmp.
        -- intros j c' Hlt Hj.
           rewrite lookup_app_l in Hj
             by (pose proof (lookup_lt_Some _ _ _ Hk); lia).
           eapply Hfirst; eauto.
    + subst seen. simpl.
      repeat split.
      * intros [|j] c' Hj; simpl in Hj; [|done].
        injection Hj as <-. apply Qle_refl.
      * intros j c' Hlt. lia.
Qed.

Lemma extractOne_best query choices :
  choices <> [] ->
  exists b, extractOne query choices = Some b /\ is_best query choices b.
Proof.
  intros Hne.
  pose proof (extractOne_from_best query [] choices None eq_refl) as H.
  simpl in H. fold (extractOne query choices) in H.
  destruct (extractOne query choices) as [b|]; [eauto | contradiction].
Qed.

Lemma extractOne_nil query : extractOne query [] = None.
Proof. reflexivity. Qed.

(** ** [find_best_match] *)

Lemma find_best_match_run user_input choices score_cutoff s :
  find_best_match user_input choices score_cutoff s =
  Ok (match extractOne user_input choices with
      | Some (match_, score, _) =>
          if Qle_bool score_cutoff score then (Some match_, score)
          else (None, score)
      | None => (None, 0%Q)
      end, log_call (extractOne_call user_input choices) s).
Proof.
  unfold find_best_match, process_extractOne, called, mbind, M_bind, mret, M_ret.
  destruct (extractOne user_input choices) as [[[m sc] k]|]; [|reflexivity].
  destruct (Qle_bool score_cutoff sc); reflexivity.
Qed.

(** C1.  On a non-empty candidate list, [find_best_match] with cutoff 50
    finds the highest score among the candidates, held by the earliest
    candidate that reaches it; it returns that candidate and the score when
    the score is at least 50 (exactly 50 included), and no candidate
    together with that highest score when the score is below 50. *)
Theorem find_best_match_cutoff_50 user_input choices s :
  choices <> [] ->
  exists match_ score i,
    is_best user_input choices (match_, score, i) /\
    ((50 <= score)%Q ->
     find_best_match user_input choices 50%Q s =
     Ok ((Some match_, score), log_call (extractOne_call user_input choices) s)) /\
    ((score < 50)%Q ->
     find_best_match user_input choices 50%Q s =
     Ok ((None, score), log_call (extractOne_call user_input choices) s)).
Proof.
  intros Hne.
  destruct (extractOne_best user_input choices Hne) as ([[m sc] k] & Hex & Hbest).
  exists m, sc, k. split; [exact Hbest|].
  rewrite find_best_match_run, Hex.
  split; intros Hsc.
  - apply Qle_bool_iff in Hsc. rewrite Hsc. reflexivity.
  - destruct (Qle_bool 50 sc) eqn:Hle; [|reflexivity].
    apply Qle_bool_iff in Hle. exfalso. eapply Qlt_not_le; eauto.
Qed.

(** C2, as the script has it.  [find_best_match] never fails: on the empty
    candidate list it returns no match with score 0, and on every list it
    returns a result. *)
Theorem find_best_match_total user_input score_cutoff s :
  find_best_match user_input [] score_cutoff s =
    Ok ((None, 0%Q), log_call (extractOne_call user_input []) s) /\
  forall choices, exists result,
    find_best_match user_input choices score_cutoff s =
    Ok (result, log_call (extractOne_call user_input choices) s).
Proof.
  split.
  - rewrite find_best_match_run. reflexivity.
  - intros choices. rewrite find_best_match_run. eauto.
Qed.

(** ** [process.extract] *)

Lemma scored_from_entry query choices i e :
  e ∈ scored_from query choices i ->
  exists j, snd e = (i + j)%nat /\ choices !! j = Some (fst (fst e)) /\
            snd (fst e) = WRatio query (fst (fst e)).
Proof.
  revert i. induction choices as [|choice rest IH]; intros i He; simpl in He.
  - apply elem_of_nil in He. contradiction.
  - apply elem_of_cons in He as [-> | He].
    + exists 0%nat. simpl. split; [lia | split; reflexivity].
    + destruct (IH _ He) as (j & Hj & Hlook & Hsc).
      exists (S j). split; [lia | split; assumption].
Qed.

Lemma length_scored_from query choices i :
  length (scored_from query choices i) = length choices.
Proof. revert i. induction choices; intros i; simpl; [|rewrite IHchoices]; reflexivity. Qed.

Lemma insert_ranked_perm x l : insert_ranked x l ≡ₚ x :: l.
Proof.
  induction l as [|y l IH]; simpl; [reflexivity|].
  destruct (negb (Qle_bool (snd (fst y)) (snd (fst x)))); [|reflexivity].
  rewrite IH. apply perm_swap.
Qed.

Lemma sort_ranked_perm l : sort_ranked l ≡ₚ l.
Proof.
  induction l as [|x l IH]; simpl; [reflexivity|].
  rewrite insert_ranked_perm, IH. reflexivity.
Qed.

Lemma outranks_score_le a b : outranks a b -> (snd (fst b) <= snd (fst a))%Q.
Proof. intros [H | [H _]]; lra. Qed.

(** Inserting an entry that sits earlier than all the sorted ones. *)
Lemma insert_ranked_sorted x l :
  StronglySorted outranks l ->
  Forall (fun y => (snd x < snd y)%nat) l ->
  StronglySorted outranks (insert_ranked x l).
Proof.
  induction l as [|y l IH]; intros Hs Hidx; simpl.
  - repeat constructor.
  - apply StronglySorted_cons in Hs as [Hy Hs].
    apply Forall_cons in Hidx as [Hxy Hidx].
    destruct (negb (Qle_bool (snd (fst y)) (snd (fst x)))) eqn:Hcmp.
    + apply strictly_greater in Hcmp.
      apply StronglySorted_cons. split; [|apply IH; assumption].
      rewrite insert_ranked_perm. apply Forall_cons. split; [|exact Hy].
      left. exact Hcmp.
    + apply not_strictly_greater in Hcmp.
      apply StronglySorted_cons. split.
      * assert (Hall : Forall (fun z => (snd (fst z) <= snd (fst x))%Q
                                      /\ (snd x < snd z)%nat) (y :: l)).
        { apply Forall_cons. split; [split; assumption|].
          rewrite Forall_forall in Hy, Hidx |- *. intros z Hz. split.
          - pose proof (outranks_score_le _ _ (Hy z Hz)). lra.
          - apply Hidx, Hz. }
        eapply Forall_impl; [exact Hall|]. intros z [Hle Hlt].
        destruct (Qlt_le_dec (snd (fst z)) (snd (fst x))) as [Hz | Hz].
        -- left. exact Hz.
        -- right. split; [lra | exact Hlt].
      * apply StronglySorted_cons. split; assumption.
Qed.

Lemma sort_scored_sorted query choices i :
  StronglySorted outranks (sort_ranked (scored_from query choices i)).
Proof.
  revert i. induction choices as [|choice rest IH]; intros i; simpl.
  - constructor.
  - apply insert_ranked_sorted; [apply IH|].
    rewrite sort_ranked_perm. apply Forall_forall. intros e He.
    destruct (scored_from_entry _ _ _ _ He) as (j & Hj & _). simpl. lia.
Qed.

(** C6.  [process.extract] with [limit=5], the call behind the
    suggestions, returns at most 5 entries; they are the head of the
    ranking of all the candidates, whatever their score, so no cutoff
    plays a part; each entry is a candidate with its position and score;
    the entries are ordered by decreasing score, and by position in the
    candidate list among equal scores. *)
Theorem extract_top_5 query choices :
  let top := extract query choices 5 in
  (length top <= 5)%nat /\
  length top = Nat.min 5 (length choices) /\
  StronglySorted outranks top /\
  Forall (fun e => choices !! snd e = Some (fst (fst e)) /\
                   snd (fst e) = WRatio query (fst (fst e))) top /\
  exists rest,
    top ++ rest ≡ₚ scored_from query choices 0 /\
    StronglySorted outranks (top ++ rest).
Proof.
  intros top. unfold top, extract.
  set (ranking := sort_ranked (scored_from query choices 0)).
  assert (Hlen : length (firstn 5 ranking) = Nat.min 5 (length choices)).
  { rewrite length_take. unfold ranking.
    rewrite (Permutation_length (sort_ranked_perm _)), length_scored_from.
    reflexivity. }
  assert (Hsplit : firstn 5 ranking ++ skipn 5 ranking = ranking)
    by apply take_drop.
  assert (Hsorted : StronglySorted outranks ranking)
    by apply sort_scored_sorted.
  split; [rewrite Hlen; lia|].
  split; [exact Hlen|].
  split; [apply StronglySorted_app_1_l with (skipn 5 ranking); rewrite Hsplit; exact Hsorted|].
  split.
  - apply Forall_forall. intros e He.
    assert (Hin : e ∈ scored_from query choices 0).
    { rewrite <- (sort_ranked_perm (scored_from query choices 0)).
      fold ranking. rewrite <- Hsplit. apply elem_of_app. left. exact He. }
    destruct (scored_from_entry _ _ _ _ Hin) as (j & Hj & Hlook & Hsc).
    simpl in Hj. subst j. split; assumption.
  - exists (skipn 5 ranking). rewrite Hsplit. split; [apply sort_ranked_perm | exact Hsorted].
Qed.

(** ** The matched row *)

Lemma filter_first (df : DataFrame) name i r :
  df !! i = Some r ->
  waste_type r = name ->
  (forall j r', (j < i)%nat -> df !! j = Some r' -> waste_type r' <> name) ->
  exists later, filter (fun r => waste_type r = name) df = r :: later.
Proof.
  revert i. induction df as [|x df IH]; intros i Hi Hname Hfirst.
  - destruct i; discriminate.
  - destruct i as [|i]; simpl in Hi.
    + injection Hi as ->. rewrite filter_cons_True by exact Hname. eauto.
    + rewrite filter_cons_False by (apply (Hfirst 0%nat x); [lia | reflexivity]).
      apply (IH i Hi Hname).
      intros j r' Hj. apply (Hfirst (S j) r'). lia.
Qed.

Lemma first_named (df : DataFrame) name :
  name ∈ waste_list_of df ->
  exists i r, df !! i = Some r /\ waste_type r = name /\
    forall j r', (j < i)%nat -> df !! j = Some r' -> waste_type r' <> name.
Proof.
  induction df as [|x df IH]; simpl; intros Hin.
  - apply elem_of_nil in Hin. contradiction.
  - destruct (decide (waste_type x = name)) as [Hx | Hx].
    + exists 0%nat, x. repeat split; [exact Hx | intros j r' Hj; lia].
    + apply elem_of_cons in Hin as [Hin | Hin]; [congruence|].
      destruct (IH Hin) as (i & r & Hi & Hr & Hfirst).
      exists (S i), r. repeat split; [exact Hi | exact Hr |].
      intros [|j] r' Hj Hlook; simpl in Hlook.
      * injection Hlook as <-. exact Hx.
      * apply (Hfirst j r'); [lia | exact Hlook].
Qed.

Lemma waste_row_of_first (df : DataFrame) i r s :
  df !! i = Some r ->
  (forall j r', (j < i)%nat -> df !! j = Some r' -> waste_type r' <> waste_type r) ->
  waste_row_of df (waste_type r) s = Ok (to_dict r, s).
Proof.
  intros Hi Hfirst. unfold waste_row_of.
  destruct (filter_first df (waste_type r) i r Hi eq_refl Hfirst) as [later ->].
  reflexivity.
Qed.

(** The card draws widgets and nothing else: no file access, no call of
    rapidfuzz. *)
Lemma card_run waste_row matched_type match_score inp s :
  exists rest,
    card waste_row matched_type match_score inp s =
    Ok (tt, {| file := file s;
               drawn := drawn s ++ st_subheader_matched matched_type match_score :: rest;
               calls := calls s |}).
Proof.
  unfold card. destruct (est_compost_of waste_row (qty inp)); run;
    unfold log_widget; simpl; rewrite <- !app_assoc; simpl; eauto.
Qed.

Lemma recommendation_card (df : DataFrame) waste_list i r match_score inp s :
  df !! i = Some r ->
  waste_type r <> "" ->
  (forall j r', (j < i)%nat -> df !! j = Some r' -> waste_type r' <> waste_type r) ->
  recommendation df waste_list (Some (waste_type r)) match_score inp s =
  card (to_dict r) (waste_type r) match_score inp s.
Proof.
  intros Hi Hname Hfirst.
  unfold recommendation. apply truthy_true in Hname. rewrite Hname.
  unfold matched, mbind, M_bind.
  rewrite (waste_row_of_first df i r s Hi Hfirst). reflexivity.
Qed.

(** C10.  When several rows bear the matched name, the recommendation
    (the card and the report in it) is made from the earliest of them:
    line 73 yields the dict of that row and the recommendation is its
    card, whatever the later rows hold. *)
Theorem recommendation_uses_first_row (df : DataFrame) waste_list i r match_score inp s :
  df !! i = Some r ->
  waste_type r <> "" ->
  (forall j r', (j < i)%nat -> df !! j = Some r' -> waste_type r' <> waste_type r) ->
  waste_row_of df (waste_type r) s = Ok (to_dict r, s) /\
  recommendation df waste_list (Some (waste_type r)) match_score inp s =
  card (to_dict r) (waste_type r) match_score inp s.
Proof.
  intros Hi Hname Hfirst. split.
  - apply (waste_row_of_first df i); assumption.
  - apply (recommendation_card df waste_list i); assumption.
Qed.

(** ** Selection and empty input *)

(** C3.  With a name picked in the list, whatever the free text, the run
    calls neither [process.extractOne] nor [process.extract] and shows the
    card of the row of that name with score 100. *)
Theorem recommend_selected (df : DataFrame) inp s :
  selected inp <> "" ->
  selected inp ∈ waste_list_of df ->
  exists r s' rest,
    r ∈ df /\ waste_type r = selected inp /\
    recommend df inp s = card (to_dict r) (selected inp) (Some 100%Q) inp s /\
    recommend df inp s = Ok (tt, s') /\
    calls s' = calls s /\
    file s' = file s /\
    drawn s' = drawn s ++ st_subheader_matched (selected inp) (Some 100%Q) :: rest.
Proof.
  intros Hsel Hin.
  destruct (first_named df _ Hin) as (i & r & Hi & Hr & Hfirst).
  assert (Hrec : recommend df inp s = card (to_dict r) (selected inp) (Some 100%Q) inp s).
  { unfold recommend, App.matching.
    pose proof Hsel as Ht. apply truthy_true in Ht. rewrite Ht.
    unfold mbind at 1, M_bind at 1, mret at 1, M_ret at 1.
    rewrite <- Hr in Hsel, Hfirst |- *.
    apply (recommendation_card df (waste_list_of df) i r); assumption. }
  destruct (card_run (to_dict r) (selected inp) (Some 100%Q) inp s) as [rest Hcard].
  eexists r, _, rest. rewrite Hrec, Hcard. simpl.
  repeat split; try reflexivity; [|exact Hr].
  eapply list_elem_of_lookup_2; eauto.
Qed.

(** C9.  With nothing picked and a free text that strips to the empty
    string, the run shows the prompt for a waste name and nothing else,
    and calls neither [process.extractOne] nor [process.extract]. *)
Theorem recommend_empty_input (df : DataFrame) inp s :
  selected inp = "" ->
  Str.strip (user_text inp) = "" ->
  recommend df inp s =
    Ok (tt, log_widget (st_info "Type a waste name above to get a recommendation or select from the list.") s) /\
  forall s', recommend df inp s = Ok (tt, s') ->
    calls s' = calls s /\ file s' = file s.
Proof.
  intros Hsel Htext.
  assert (Hrun : recommend df inp s =
    Ok (tt, log_widget (st_info "Type a waste name above to get a recommendation or select from the list.") s)).
  { unfold recommend, App.matching, App.recommendation, unmatched.
    rewrite Hsel, Htext. reflexivity. }
  split; [exact Hrun|].
  intros s' Hs'. rewrite Hrun in Hs'. injection Hs' as <-. split; reflexivity.
Qed.

(** ** The yield estimate *)

(** C4, as the script has it.  For a quantity above zero the estimate is
    [qty * (yield_pct / 100.0)], where [yield_pct] is the "Yield_pct" cell
    of the row converted by [float], positive or not, and 40.0 when the
    row has no such cell or the conversion raises; 100.0 kg with no
    "Yield_pct" gives 40.0. *)
Theorem est_compost_by_yield (waste_row : gmap string value) qty :
  Float.positive qty = true ->
  est_compost_of waste_row qty = Some (qty * (yield_pct_of waste_row / 100))%float /\
  (waste_row !! "Yield_pct" = None -> yield_pct_of waste_row = 40%float) /\
  (forall x, waste_row !! "Yield_pct" = Some (VNum x) -> is_nan x = false ->
             yield_pct_of waste_row = x) /\
  (forall t x, waste_row !! "Yield_pct" = Some (VStr t) ->
               float_of_str t = Some x -> is_nan x = false ->
               yield_pct_of waste_row = x) /\
  (forall t, waste_row !! "Yield_pct" = Some (VStr t) -> float_of_str t = None ->
             yield_pct_of waste_row = 40%float) /\
  (waste_row !! "Yield_pct" = None -> qty = 100%float ->
   est_compost_of waste_row qty = Some 40%float).
Proof.
  intros Hqty.
  assert (Hest : est_compost_of waste_row qty
                 = Some (qty * (yield_pct_of waste_row / 100))%float).
  { unfold App.est_compost_of.
    rewrite Hqty, (positive_truthy qty Hqty). reflexivity. }
  unfold App.yield_pct_of in *.
  split; [exact Hest|].
  split; [intros ->; reflexivity|].
  split; [intros x -> _; reflexivity|].
  split; [intros t x -> Hx _; simpl; rewrite Hx; reflexivity|].
  split; [intros t -> Hx; simpl; rewrite Hx; reflexivity|].
  intros Hnone ->. rewrite Hest, Hnone. reflexivity.
Qed.

(** ** Adding a waste type *)

Lemma new_row_fields inp :
  waste_type (new_row_of inp) = Str.strip (new_waste inp) /\
  fields (new_row_of inp) !! "Best Use" = Some (VStr (Str.strip (new_best_use inp))) /\
  fields (new_row_of inp) !! "Compost Time" = Some (VStr (Str.strip (new_compost inp))) /\
  fields (new_row_of inp) !! "Nutrient" = Some (VStr (Str.strip (new_nutrient inp))) /\
  fields (new_row_of inp) !! "Tips" = Some (VStr (Str.strip (new_tips inp))).
Proof.
  unfold App.new_row_of. simpl.
  destruct (Str.truthy (Str.strip (new_yield inp)));
    [destruct (float_of_str (Str.strip (new_yield inp)))|];
    repeat split; reflexivity.
Qed.

(** A yield that [float] rejects is left out of the new row; an empty one
    as well. *)
Lemma new_row_yield inp :
  fields (new_row_of inp) !! "Yield_pct" =
  if Str.truthy (Str.strip (new_yield inp))
  then VNum <$> float_of_str (Str.strip (new_yield inp))
  else None.
Proof.
  unfold App.new_row_of. simpl.
  destruct (Str.truthy (Str.strip (new_yield inp)));
    [destruct (float_of_str (Str.strip (new_yield inp)))|]; reflexivity.
Qed.

Lemma df_append_last (df : DataFrame) new_row :
  last (df_append df new_row) =
  Some (reindex (columns df ∪ dom (fields new_row)) new_row).
Proof. unfold df_append. rewrite map_app. simpl. apply last_snoc. Qed.

Lemma df_append_names (df : DataFrame) new_row :
  waste_list_of (df_append df new_row) = waste_list_of df ++ [waste_type new_row].
Proof.
  unfold df_append, waste_list_of. rewrite map_map, map_app. reflexivity.
Qed.

Lemma reindex_keeps cols r key v :
  fields r !! key = Some v -> fields (reindex cols r) !! key = Some v.
Proof. intros H. simpl. apply lookup_union_Some_l. exact H. Qed.

(** C8.  The handler of "Add new waste type" strips the name.  An empty
    name is rejected with the message "Enter a waste type name.": the frame
    stays as it was and the file is not written.  Otherwise the new row,
    with the stripped name and fields, goes last in the frame, and that
    frame is written to the file. *)
Theorem add_new_waste_type_validates (df : DataFrame) inp s :
  (Str.strip (new_waste inp) = "" ->
   add_new_waste_type df inp s =
     Ok (df, log_widget (st_error "Enter a waste type name.") s) /\
   file (log_widget (st_error "Enter a waste type name.") s) = file s) /\
  (Str.strip (new_waste inp) <> "" ->
   exists s' df' r,
     add_new_waste_type df inp s = Ok (df', s') /\
     df' = df_append df (new_row_of inp) /\
     file s' = Some df' /\
     calls s' = calls s /\
     waste_list_of df' = waste_list_of df ++ [Str.strip (new_waste inp)] /\
     last df' = Some r /\
     waste_type r = Str.strip (new_waste inp) /\
     fields r !! "Best Use" = Some (VStr (Str.strip (new_best_use inp))) /\
     fields r !! "Compost Time" = Some (VStr (Str.strip (new_compost inp))) /\
     fields r !! "Nutrient" = Some (VStr (Str.strip (new_nutrient inp))) /\
     fields r !! "Tips" = Some (VStr (Str.strip (new_tips inp)))).
Proof.
  split; intros Hname.
  - unfold App.add_new_waste_type. rewrite Hname. split; reflexivity.
  - apply truthy_true in Hname.
    destruct (new_row_fields inp) as (Hn & Hb & Hc & Hnu & Ht).
    eexists _, _, _.
    split; [unfold App.add_new_waste_type; rewrite Hname; reflexivity|].
    split; [reflexivity|]. simpl.
    split; [reflexivity|].
    split; [reflexivity|].
    split; [rewrite df_append_names, Hn; reflexivity|].
    split; [apply df_append_last|].
    split; [exact Hn|].
    repeat split; apply reindex_keeps; assumption.
Qed.

End Properties.

(** ** The matcher as a function of its inputs *)

Lemma extractOne_from_ext W W' query choices i result :
  (forall c, c ∈ choices -> W query c = W' query c) ->
  extractOne_from W query choices i result = extractOne_from W' query choices i result.
Proof.
  revert i result. induction choices as [|choice rest IH]; intros i result Hagree.
  - reflexivity.
  - simpl. rewrite (Hagree choice) by apply list_elem_of_here.
    apply IH. intros c Hc. apply Hagree, list_elem_of_further, Hc.
Qed.

Lemma scored_from_ext W W' query choices i :
  (forall c, c ∈ choices -> W query c = W' query c) ->
  scored_from W query choices i = scored_from W' query choices i.
Proof.
  revert i. induction choices as [|choice rest IH]; intros i Hagree.
  - reflexivity.
  - simpl. rewrite (Hagree choice) by apply list_elem_of_here.
    f_equal. apply IH. intros c Hc. apply Hagree, list_elem_of_further, Hc.
Qed.

(** C7.  [find_best_match] and the suggestions of [process.extract] are
    functions of the query, the candidates and the scores of those
    candidates: two calls with the same query and candidates return the
    same match, score and suggestions whatever the session they run in,
    and a call leaves the file and the widgets as they were. *)
Theorem matcher_deterministic W W' query choices score_cutoff limit s1 s2 :
  (forall c, c ∈ choices -> W query c = W' query c) ->
  exists result s1' s2',
    find_best_match W query choices score_cutoff s1 = Ok (result, s1') /\
    find_best_match W' query choices score_cutoff s2 = Ok (result, s2') /\
    file s1' = file s1 /\ drawn s1' = drawn s1 /\
    file s2' = file s2 /\ drawn s2' = drawn s2 /\
    extract W query choices limit = extract W' query choices limit.
Proof.
  intros Hagree.
  eexists _, _, _.
  split; [apply find_best_match_run|].
  split.
  - rewrite find_best_match_run. unfold extractOne.
    rewrite (extractOne_from_ext W W') by exact Hagree. reflexivity.
  - repeat split. unfold extract.
    rewrite (scored_from_ext W W') by exact Hagree. reflexivity.
Qed.

(** ** Runs of the sample *)

Example extract_ties :
  extract Sample.WRatio "C" (waste_list_of Sample.df) 2 =
  [("Cow Manure", Qmake 100 10, 1%nat); ("Cow Manure", Qmake 100 10, 3%nat)].
Proof. vm_compute. reflexivity. Qed.

Example find_best_match_cow :
  find_best_match Sample.WRatio "Cow Man" (waste_list_of Sample.df) 50%Q Sample.start =
  Ok ((Some "Cow Manure", Qmake 700 10),
      log_call (extractOne_call "Cow Man" (waste_list_of Sample.df)) Sample.start).
Proof. vm_compute. reflexivity. Qed.

Example find_best_match_rice :
  find_best_match Sample.WRatio "Rice" (waste_list_of Sample.df) 50%Q Sample.start =
  Ok ((None, Qmake 400 9),
      log_call (extractOne_call "Rice" (waste_list_of Sample.df)) Sample.start).
Proof. vm_compute. reflexivity. Qed.

(** Whatever the row, the report is not the lines joined by line feeds:
    after the title comes a backslash. *)
Lemma format_report_not_newline_joined str_of_float now wt_row qty est :
  format_report str_of_float now wt_row qty est <>
  spec_report str_of_float now wt_row qty est.
Proof.
  unfold format_report, spec_report, report_lines, Str.join.
  intros H. simpl in H. discriminate H.
Qed.

(** A blank "Yield_pct" cell is NaN, and [float] hands it on. *)
Example yield_pct_of_blank_cell :
  is_nan (yield_pct_of Sample.float_of_str (<["Yield_pct" := VNum nan]> ∅)) = true.
Proof. vm_compute. reflexivity. Qed.

(** With no dataset the script reports it and stops; with an empty one it
    stops: nothing is matched. *)
Lemma app_stops_without_data W float_of_str str_of_float inp s :
  (file s = None ->
   app W float_of_str str_of_float inp s =
   Ok (tt, log_widget (st_error "Dataset not found: waste_data.csv") s)) /\
  (file s = Some [] -> app W float_of_str str_of_float inp s = Ok (tt, s)).
Proof.
  unfold app, load_dataset, read_csv, mbind, M_bind.
  split; intros ->; reflexivity.
Qed.

(** C5: the report of the sample row, as [format_report] builds it.  The
    lines are joined by a backslash and the letter n, so the report is one
    line and differs from the lines joined by line feeds. *)
Theorem format_report_separator :
  format_report Sample.str_of_float "2024-05-01 10:30:00"
    (to_dict Sample.cow_manure) (Some 100%float) (Some 40%float) =
  "Farm Waste → Fertilizer Advisor Report\nGenerated: 2024-05-01 10:30:00\n\nWaste Type: Cow Manure\nBest Use: Compost\nCompost Time: 60 days\nNutrient: Nitrogen\nTips: Turn weekly\n\nInput Quantity: 100.00 kg\nEstimated Compost Output: 40.00 kg"
  /\
  format_report Sample.str_of_float "2024-05-01 10:30:00"
    (to_dict Sample.cow_manure) (Some 100%float) (Some 40%float) <>
  spec_report Sample.str_of_float "2024-05-01 10:30:00"
    (to_dict Sample.cow_manure) (Some 100%float) (Some 40%float).
Proof.
  split.
  - vm_compute. reflexivity.
  - apply String.eqb_neq. vm_compute. reflexivity.
Qed.

(** The estimate rounds as the script writes it: dividing the yield first
    is not dividing the product. *)
Example estimate_rounds_as_written :
  (3 * (55 / 100))%float <> (3 * 55 / 100)%float.
Proof. apply float_neq; reflexivity. Qed.

(** ** Counterexamples to the claims as worded *)

(** C2 as worded fails: on the empty candidate list [find_best_match]
    returns no match with score 0 and raises nothing. *)
Lemma find_best_match_empty_no_error :
  find_best_match Sample.WRatio "cow dung" [] 50%Q Sample.start =
    Ok ((None, 0%Q), log_call (extractOne_call "cow dung" []) Sample.start) /\
  ~ exists e, find_best_match Sample.WRatio "cow dung" [] 50%Q Sample.start = Raise e.
Proof.
  split; [reflexivity|]. intros [e He]. discriminate He.
Qed.

(** C4 as worded fails: a yield of -5 is not a positive number, so the
    worded rule uses 40.0 and estimates 40.0 kg from 100.0 kg; the script
    uses -5 and estimates -5.0 kg. *)
Lemma yield_pct_not_positive :
  let waste_row := to_dict Sample.spoiled_hay in
  Float.positive 100 = true /\
  waste_row !! "Yield_pct" = Some (VNum (-5)) /\
  Float.positive (-5) = false /\
  spec_yield_pct Sample.float_of_str waste_row = 40%float /\
  yield_pct_of Sample.float_of_str waste_row = (-5)%float /\
  yield_pct_of Sample.float_of_str waste_row <> spec_yield_pct Sample.float_of_str waste_row /\
  est_compost_of Sample.float_of_str waste_row 100 = Some (-5)%float /\
  est_compost_of Sample.float_of_str waste_row 100 <>
    Some (100 * (spec_yield_pct Sample.float_of_str waste_row / 100))%float.
Proof.
  intros waste_row.
  assert (Hy : yield_pct_of Sample.float_of_str waste_row = (-5)%float)
    by (vm_compute; reflexivity).
  assert (Hs : spec_yield_pct Sample.float_of_str waste_row = 40%float)
    by (vm_compute; reflexivity).
  assert (He : est_compost_of Sample.float_of_str waste_row 100 = Some (-5)%float)
    by (vm_compute; reflexivity).
  repeat split; try (vm_compute; reflexivity); try assumption.
  - rewrite Hy, Hs. apply float_neq; reflexivity.
  - rewrite He, Hs. intros H%(inj Some). revert H.
    apply float_neq; reflexivity.
Qed.

(** ** The theorems at the sample *)

Lemma find_best_match_cutoff_50_witness :
  Sample.names <> [] /\
  exists match_ score i,
    is_best Sample.WRatio "Cow Man" Sample.names (match_, score, i) /\
    ((50 <= score)%Q ->
     find_best_match Sample.WRatio "Cow Man" Sample.names 50%Q Sample.start =
     Ok ((Some match_, score), log_call (extractOne_call "Cow Man" Sample.names) Sample.start)) /\
    ((score < 50)%Q ->
     find_best_match Sample.WRatio "Cow Man" Sample.names 50%Q Sample.start =
     Ok ((None, score), log_call (extractOne_call "Cow Man" Sample.names) Sample.start)).
Proof.
  assert (H : Sample.names <> []) by discriminate.
  split; [exact H|].
  exact (find_best_match_cutoff_50 Sample.WRatio "Cow Man" Sample.names Sample.start H).
Defined.

Lemma recommend_selected_witness :
  selected Sample.pick_cow <> "" /\
  selected Sample.pick_cow ∈ waste_list_of Sample.df /\
  exists r s' rest,
    r ∈ Sample.df /\ waste_type r = selected Sample.pick_cow /\
    recommend Sample.WRatio Sample.float_of_str Sample.str_of_float Sample.df Sample.pick_cow Sample.start =
      card Sample.float_of_str Sample.str_of_float (to_dict r)
        (selected Sample.pick_cow) (Some 100%Q) Sample.pick_cow Sample.start /\
    recommend Sample.WRatio Sample.float_of_str Sample.str_of_float Sample.df Sample.pick_cow Sample.start =
      Ok (tt, s') /\
    calls s' = calls Sample.start /\
    file s' = file Sample.start /\
    drawn s' = drawn Sample.start
               ++ st_subheader_matched (selected Sample.pick_cow) (Some 100%Q) :: rest.
Proof.
  assert (H1 : selected Sample.pick_cow <> "") by discriminate.
  assert (H2 : selected Sample.pick_cow ∈ waste_list_of Sample.df)
    by (apply list_elem_of_further, list_elem_of_here).
  split; [exact H1|]. split; [exact H2|].
  exact (recommend_selected Sample.WRatio Sample.float_of_str Sample.str_of_float
           Sample.df Sample.pick_cow Sample.start H1 H2).
Defined.

Lemma recommend_empty_input_witness :
  selected Sample.type_blank = "" /\
  Str.strip (user_text Sample.type_blank) = "" /\
  recommend Sample.WRatio Sample.float_of_str Sample.str_of_float Sample.df Sample.type_blank Sample.start =
    Ok (tt, log_widget (st_info "Type a waste name above to get a recommendation or select from the list.") Sample.start) /\
  forall s',
    recommend Sample.WRatio Sample.float_of_str Sample.str_of_float Sample.df Sample.type_blank Sample.start
    = Ok (tt, s') ->
    calls s' = calls Sample.start /\ file s' = file Sample.start.
Proof.
  assert (H1 : selected Sample.type_blank = "") by reflexivity.
  assert (H2 : Str.strip (user_text Sample.type_blank) = "") by reflexivity.
  split; [exact H1|]. split; [exact H2|].
  exact (recommend_empty_input Sample.WRatio Sample.float_of_str Sample.str_of_float
           Sample.df Sample.type_blank Sample.start H1 H2).
Defined.

Lemma est_compost_by_yield_witness :
  Float.positive 100 = true /\
  est_compost_of Sample.float_of_str (to_dict Sample.rice_husk) 100 =
    Some (100 * (yield_pct_of Sample.float_of_str (to_dict Sample.rice_husk) / 100))%float /\
  est_compost_of Sample.float_of_str (to_dict Sample.rice_husk) 100 = Some 40%float.
Proof.
  assert (H : Float.positive 100 = true) by reflexivity.
  pose proof (est_compost_by_yield Sample.float_of_str (to_dict Sample.rice_husk) 100 H)
    as (Hest & _ & _ & _ & _ & H100).
  split; [exact H|]. split; [exact Hest|].
  apply H100; reflexivity.
Defined.

Lemma recommendation_uses_first_row_witness :
  Sample.df !! 1%nat = Some Sample.cow_manure /\
  Sample.df !! 3%nat = Some Sample.cow_manure_again /\
  waste_type Sample.cow_manure_again = waste_type Sample.cow_manure /\
  waste_row_of Sample.df (waste_type Sample.cow_manure) Sample.start =
    Ok (to_dict Sample.cow_manure, Sample.start) /\
  recommendation Sample.WRatio Sample.float_of_str Sample.str_of_float
    Sample.df Sample.names (Some (waste_type Sample.cow_manure)) (Some 100%Q)
    Sample.pick_cow Sample.start =
  card Sample.float_of_str Sample.str_of_float (to_dict Sample.cow_manure)
    (waste_type Sample.cow_manure) (Some 100%Q) Sample.pick_cow Sample.start.
Proof.
  assert (H1 : Sample.df !! 1%nat = Some Sample.cow_manure) by reflexivity.
  assert (H2 : waste_type Sample.cow_manure <> "") by discriminate.
  assert (H3 : forall j r', (j < 1)%nat -> Sample.df !! j = Some r' ->
                            waste_type r' <> waste_type Sample.cow_manure).
  { intros [|j] r' Hj Hr'; [|lia]. injection Hr' as <-. discriminate. }
  split; [exact H1|]. split; [reflexivity|]. split; [reflexivity|].
  exact (recommendation_uses_first_row Sample.WRatio Sample.float_of_str
           Sample.str_of_float Sample.df Sample.names 1%nat Sample.cow_manure
           (Some 100%Q) Sample.pick_cow Sample.start H1 H2 H3).
Defined.

Lemma matcher_deterministic_witness :
  (forall c, c ∈ Sample.names -> Sample.WRatio "Cow Man" c = Sample.WRatio "Cow Man" c) /\
  exists result s1' s2',
    find_best_match Sample.WRatio "Cow Man" Sample.names 50%Q Sample.start = Ok (result, s1') /\
    find_best_match Sample.WRatio "Cow Man" Sample.names 50%Q
      (log_widget (st_info "seen") Sample.start) = Ok (result, s2') /\
    file s1' = file Sample.start /\ drawn s1' = drawn Sample.start /\
    file s2' = file (log_widget (st_info "seen") Sample.start) /\
    drawn s2' = drawn (log_widget (st_info "seen") Sample.start) /\
    extract Sample.WRatio "Cow Man" Sample.names 5 = extract Sample.WRatio "Cow Man" Sample.names 5.
Proof.
  assert (H : forall c, c ∈ Sample.names ->
                        Sample.WRatio "Cow Man" c = Sample.WRatio "Cow Man" c)
    by (intros c _; reflexivity).
  split; [exact H|].
  exact (matcher_deterministic Sample.WRatio Sample.WRatio "Cow Man" Sample.names
           50%Q 5 Sample.start (log_widget (st_info "seen") Sample.start) H).
Defined.

Lemma add_new_waste_type_validates_witness :
  Str.strip (new_waste Sample.add_blank) = "" /\
  add_new_waste_type Sample.float_of_str Sample.df Sample.add_blank Sample.start =
    Ok (Sample.df, log_widget (st_error "Enter a waste type name.") Sample.start) /\
  Str.strip (new_waste Sample.add_straw) <> "" /\
  exists s' df' r,
    add_new_waste_type Sample.float_of_str Sample.df Sample.add_straw Sample.start = Ok (df', s') /\
    file s' = Some df' /\
    last df' = Some r /\
    waste_type r = "Straw" /\
    fields r !! "Best Use" = Some (VStr "Mulching").
Proof.
  assert (H1 : Str.strip (new_waste Sample.add_blank) = "") by reflexivity.
  assert (H2 : Str.strip (new_waste Sample.add_straw) <> "") by discriminate.
  destruct (add_new_waste_type_validates Sample.float_of_str Sample.df Sample.add_blank Sample.start)
    as [Hblank _].
  destruct (add_new_waste_type_validates Sample.float_of_str Sample.df Sample.add_straw Sample.start)
    as [_ Hstraw].
  split; [exact H1|]. split; [exact (proj1 (Hblank H1))|]. split; [exact H2|].
  destruct (Hstraw H2) as (s' & df' & r & Hrun & _ & Hfile & _ & _ & Hlast & Hname & Hbest & _).
  exists s', df', r. repeat split; assumption.
Defined.

(** * Further properties of the script *)

Section MoreProperties.

Variable WRatio : string -> string -> Q.
Variable float_of_str : string -> option float.
Variable str_of_float : float -> string.

Local Abbreviation extractOne := (extractOne WRatio).
Local Abbreviation extract := (extract WRatio).
Local Abbreviation find_best_match := (find_best_match WRatio).
Local Abbreviation is_best := (is_best WRatio).
Local Abbreviation scored_from := (scored_from WRatio).
Local Abbreviation matching := (matching WRatio).
Local Abbreviation unmatched := (unmatched WRatio).
Local Abbreviation yield_pct_of := (yield_pct_of float_of_str).
Local Abbreviation est_compost_of := (est_compost_of float_of_str).
Local Abbreviation card := (card float_of_str str_of_float).
Local Abbreviation recommendation := (recommendation WRatio float_of_str str_of_float).
Local Abbreviation recommend := (recommend WRatio float_of_str str_of_float).
Local Abbreviation new_row_of := (new_row_of float_of_str).
Local Abbreviation add_new_waste_type := (add_new_waste_type float_of_str).
Local Abbreviation app := (app WRatio float_of_str str_of_float).

(** ** The best candidate *)

Lemma is_best_unique query choices b b' :
  is_best query choices b -> is_best query choices b' -> b = b'.
Proof.
  destruct b as [[c sc] i], b' as [[c' sc'] i'].
  intros (Hi & Hsc & Hmax & Hfirst) (Hi' & Hsc' & Hmax' & Hfirst').
  assert (Hii : i = i').
  { destruct (lt_eq_lt_dec i i') as [[Hlt | Heq] | Hlt]; [|exact Heq|].
    - pose proof (Hfirst' i c Hlt Hi) as H1.
      pose proof (Hmax i' c' Hi') as H2.
      rewrite <- Hsc in H1. rewrite <- Hsc' in H2. lra.
    - pose proof (Hfirst i' c' Hlt Hi') as H1.
      pose proof (Hmax' i c Hi) as H2.
      rewrite <- Hsc' in H1. rewrite <- Hsc in H2. lra. }
  subst i'. rewrite Hi in Hi'. injection Hi' as <-. subst. reflexivity.
Qed.

Lemma extractOne_is_best query choices b :
  is_best query choices b -> extractOne query choices = Some b.
Proof.
  intros Hb.
  assert (Hne : choices <> []).
  { destruct b as [[c sc] i]. destruct Hb as (Hi & _). intros ->.
    destruct i; discriminate. }
  destruct (extractOne_best WRatio query choices Hne) as (b' & Hex & Hb').
  rewrite Hex. f_equal. eapply is_best_unique; eauto.
Qed.

Lemma extractOne_Some_best query choices b :
  extractOne query choices = Some b -> is_best query choices b.
Proof.
  intros Hex.
  assert (Hne : choices <> []) by (intros ->; discriminate).
  destruct (extractOne_best WRatio query choices Hne) as (b' & Hex' & Hb').
  rewrite Hex in Hex'. injection Hex' as ->. exact Hb'.
Qed.

(** X1.  Whatever the cutoff, a match returned by [find_best_match] is
    one of the candidates, the score returned with it is its own score and
    reaches the cutoff; when candidates exist and none is returned, the
    score returned is the highest of all and lies below the cutoff. *)
Theorem find_best_match_result user_input choices score_cutoff s bm sc s' :
  find_best_match user_input choices score_cutoff s = Ok ((bm, sc), s') ->
  (forall m, bm = Some m ->
     m ∈ choices /\ sc = WRatio user_input m /\ (score_cutoff <= sc)%Q) /\
  (bm = None -> choices <> [] ->
     (sc < score_cutoff)%Q /\
     (forall c, c ∈ choices -> (WRatio user_input c <= sc)%Q) /\
     exists c, c ∈ choices /\ sc = WRatio user_input c).
Proof.
  rewrite find_best_match_run. intros Hrun.
  destruct (extractOne user_input choices) as [[[m0 sc0] i0]|] eqn:Hex.
  - destruct (extractOne_Some_best _ _ _ Hex) as (Hi & Hsc & Hmax & _).
    assert (Hin : m0 ∈ choices) by (eapply list_elem_of_lookup_2; eauto).
    destruct (Qle_bool score_cutoff sc0) eqn:Hle; injection Hrun as <- <- <-.
    + apply Qle_bool_iff in Hle. split; [|discriminate].
      intros m [= <-]. repeat split; assumption.
    + split; [discriminate|]. intros _ _. split; [|split].
      * apply Qnot_le_lt. intros Hc. apply Qle_bool_iff in Hc. congruence.
      * intros c Hc. apply list_elem_of_lookup in Hc as [j Hj]. eapply Hmax; eauto.
      * exists m0. split; assumption.
  - injection Hrun as <- <- <-. split; [discriminate|].
    intros _ Hne. exfalso.
    destruct (extractOne_best WRatio user_input choices Hne) as (b & Hb & _).
    congruence.
Qed.

(** ** Line 73 *)

(** X2.  Line 73 raises [IndexError] exactly when no row bears the name;
    otherwise it yields the dict of a row of that name and changes nothing
    in the session. *)
Theorem waste_row_of_raises_iff (df : DataFrame) name s :
  (waste_row_of df name s = Raise IndexError <-> name ∉ waste_list_of df) /\
  (name ∈ waste_list_of df ->
   exists r, r ∈ df /\ waste_type r = name /\
             waste_row_of df name s = Ok (to_dict r, s)).
Proof.
  assert (Hin : name ∈ waste_list_of df ->
                exists r, r ∈ df /\ waste_type r = name /\
                          waste_row_of df name s = Ok (to_dict r, s)).
  { intros H. destruct (first_named df name H) as (i & r & Hi & Hr & Hfirst).
    exists r. split; [eapply list_elem_of_lookup_2; eauto|]. split; [exact Hr|].
    subst name. eapply waste_row_of_first; eauto. }
  split; [|exact Hin]. split.
  - intros Hraise Hname. destruct (Hin Hname) as (r & _ & _ & Hok). congruence.
  - intros Hnot. unfold waste_row_of.
    destruct (filter (fun r => waste_type r = name) df) as [|r later] eqn:Hf;
      [reflexivity|].
    exfalso. apply Hnot.
    assert (Hr : r ∈ filter (fun r => waste_type r = name) df)
      by (rewrite Hf; apply list_elem_of_here).
    apply list_elem_of_filter in Hr as [Hname Hr].
    unfold waste_list_of. rewrite <- Hname.
    apply list_elem_of_In, in_map, list_elem_of_In, Hr.
Qed.

(** ** The free-text path *)

Lemma for_each_draw {A} (xs : list A) (f : A -> widget) s :
  for_each xs (fun x => draw (f x)) s =
  Ok (tt, {| file := file s; drawn := drawn s ++ map f xs; calls := calls s |}).
Proof.
  revert s. induction xs as [|x xs IH]; intros s; simpl.
  - unfold mret, M_ret. rewrite app_nil_r. destruct s; reflexivity.
  - unfold mbind, M_bind, draw. rewrite IH. unfold log_widget. simpl.
    rewrite <- app_assoc. reflexivity.
Qed.

(** The widgets of lines 117-122 for the suggestions found. *)
Lemma unmatched_run waste_list inp s :
  Str.strip (user_text inp) <> "" ->
  unmatched waste_list inp s =
  Ok (tt,
      {| file := file s;
         drawn := drawn s
           ++ st_warning "No confident match found. Try rephrasing or choose from the list."
           :: match extract (Str.strip (user_text inp)) waste_list 5 with
              | [] => []
              | e :: l =>
                  st_markdown "**Top suggestions:**"
                  :: map (fun e => st_write_suggestion (fst (fst e)) (snd (fst e))) (e :: l)
              end;
         calls := calls s ++ [extract_call (Str.strip (user_text inp)) waste_list 5] |}).
Proof.
  intros Htext. unfold App.unmatched.
  apply String.eqb_neq in Htext. rewrite Htext.
  unfold process_extract, called, mbind, M_bind, mret, M_ret.
  destruct (extract (Str.strip (user_text inp)) waste_list 5) as [|e l].
  - reflexivity.
  - cbn [draw]. rewrite (for_each_draw (e :: l)).
    unfold log_widget, log_call. simpl. rewrite <- !app_assoc. reflexivity.
Qed.

Lemma matching_free_text inp waste_list s :
  selected inp = "" ->
  Str.strip (user_text inp) <> "" ->
  matching inp waste_list s =
  Ok (match extractOne (Str.strip (user_text inp)) waste_list with
      | Some (m, sc, _) =>
          if Qle_bool 50 sc && Str.truthy m then (Some m, Some sc)
          else (None, Some sc)
      | None => (None, Some 0%Q)
      end,
      log_call (extractOne_call (Str.strip (user_text inp)) waste_list) s).
Proof.
  intros Hsel Htext. unfold App.matching. rewrite Hsel. simpl.
  apply truthy_true in Htext. rewrite Htext.
  unfold mbind, M_bind. rewrite find_best_match_run.
  destruct (extractOne (Str.strip (user_text inp)) waste_list) as [[[m sc] i]|];
    [|reflexivity].
  unfold score_cutoff_default.
  destruct (Qle_bool 50 sc); [|reflexivity].
  destruct (Str.truthy m); reflexivity.
Qed.

(** X3.  Free text whose best candidate scores at least 50 is matched:
    [process.extractOne] is called once, [process.extract] is not, and the
    card shown is the one of the earliest row bearing the best candidate's
    name, with the candidate's score. *)
Theorem recommend_free_text_matched (df : DataFrame) inp s m sc i :
  selected inp = "" ->
  Str.strip (user_text inp) <> "" ->
  is_best (Str.strip (user_text inp)) (waste_list_of df) (m, sc, i) ->
  (50 <= sc)%Q ->
  m <> "" ->
  exists j r,
    df !! j = Some r /\ waste_type r = m /\
    (forall k r', (k < j)%nat -> df !! k = Some r' -> waste_type r' <> m) /\
    recommend df inp s =
    card (to_dict r) m (Some sc) inp
      (log_call (extractOne_call (Str.strip (user_text inp)) (waste_list_of df)) s).
Proof.
  intros Hsel Htext Hbest Hsc Hm.
  assert (Hin : m ∈ waste_list_of df).
  { destruct Hbest as (Hi & _). eapply list_elem_of_lookup_2; eauto. }
  destruct (first_named df m Hin) as (j & r & Hj & Hr & Hfirst).
  exists j, r. split; [exact Hj|]. split; [exact Hr|]. split; [exact Hfirst|].
  unfold App.recommend, mbind at 1, M_bind at 1.
  rewrite (matching_free_text inp _ s Hsel Htext).
  rewrite (extractOne_is_best _ _ _ Hbest).
  apply Qle_bool_iff in Hsc. rewrite Hsc.
  pose proof Hm as Ht. apply truthy_true in Ht. rewrite Ht. simpl.
  subst m. apply (recommendation_card WRatio float_of_str str_of_float df _ j r); assumption.
Qed.

(** X4.  Free text whose best candidate scores below 50 is not matched:
    the run calls [process.extractOne], then [process.extract] with limit
    5, and shows the warning, the heading and one line per suggestion, in
    the order of [process.extract]; the file is left alone. *)
Theorem recommend_free_text_unmatched (df : DataFrame) inp s m sc i :
  selected inp = "" ->
  Str.strip (user_text inp) <> "" ->
  is_best (Str.strip (user_text inp)) (waste_list_of df) (m, sc, i) ->
  (sc < 50)%Q ->
  let text := Str.strip (user_text inp) in
  let suggestions := extract text (waste_list_of df) 5 in
  suggestions <> [] /\
  recommend df inp s =
  Ok (tt,
      {| file := file s;
         drawn := drawn s
           ++ st_warning "No confident match found. Try rephrasing or choose from the list."
           :: st_markdown "**Top suggestions:**"
           :: map (fun e => st_write_suggestion (fst (fst e)) (snd (fst e))) suggestions;
         calls := calls s
           ++ [extractOne_call text (waste_list_of df);
               extract_call text (waste_list_of df) 5] |}).
Proof.
  intros Hsel Htext Hbest Hsc text suggestions.
  assert (Hne : suggestions <> []).
  { unfold suggestions, App.extract. intros Hnil.
    apply (f_equal length) in Hnil. rewrite length_take in Hnil.
    rewrite (Permutation_length (sort_ranked_perm _)) in Hnil.
    rewrite length_scored_from in Hnil.
    destruct Hbest as (Hi & _). apply lookup_lt_Some in Hi.
    change (length (@nil (string * Q * nat))) with 0%nat in Hnil. lia. }
  split; [exact Hne|].
  unfold App.recommend, mbind at 1, M_bind at 1.
  rewrite (matching_free_text inp _ s Hsel Htext).
  rewrite (extractOne_is_best _ _ _ Hbest).
  assert (Hle : Qle_bool 50 sc = false).
  { apply not_true_iff_false. intros Hc. apply Qle_bool_iff in Hc. lra. }
  rewrite Hle. simpl.
  rewrite (unmatched_run _ inp _ Htext). fold text. fold suggestions.
  destruct suggestions as [|e l]; [contradiction|].
  simpl. rewrite <- app_assoc. reflexivity.
Qed.




(** ** The suggestions against the best candidate *)

Lemma scored_from_elem query choices i j c :
  choices !! j = Some c ->
  (c, WRatio query c, (i + j)%nat) ∈ scored_from query choices i.
Proof.
  revert i j. induction choices as [|choice rest IH]; intros i j Hj.
  - destruct j; discriminate.
  - destruct j as [|j]; simpl in Hj |- *.
    + injection Hj as ->. rewrite Nat.add_0_r. apply list_elem_of_here.
    + apply list_elem_of_further.
      replace (i + S j)%nat with (S i + j)%nat by lia. apply IH, Hj.
Qed.

Lemma positions_scored_from query choices i :
  map snd (scored_from query choices i) = seq i (length choices).
Proof.
  revert i. induction choices as [|choice rest IH]; intros i; simpl;
    [|rewrite IH]; reflexivity.
Qed.

(** The head of the ranking is the best candidate. *)
Lemma ranking_head_best query choices x rest :
  sort_ranked (scored_from query choices 0) = x :: rest ->
  is_best query choices x.
Proof.
  intros Hrank.
  pose proof (sort_scored_sorted WRatio query choices 0) as Hsorted.
  pose proof (sort_ranked_perm (scored_from query choices 0)) as Hperm.
  rewrite Hrank in Hsorted, Hperm.
  apply StronglySorted_cons in Hsorted as [Hx _].
  assert (Hxin : x ∈ scored_from query choices 0)
    by (rewrite <- Hperm; apply list_elem_of_here).
  destruct (scored_from_entry WRatio _ _ _ _ Hxin) as (jx & Hjx & Hlook & Hsc).
  simpl in Hjx. subst jx.
  assert (Hother : forall j c, choices !! j = Some c ->
            j = snd x \/ outranks x (c, WRatio query c, j)).
  { intros j c Hj.
    pose proof (scored_from_elem query choices 0 j c Hj) as Hin.
    simpl in Hin. rewrite <- Hperm in Hin.
    apply elem_of_cons in Hin as [Heq | Hin].
    - left. rewrite <- Heq. reflexivity.
    - right. rewrite Forall_forall in Hx. apply Hx, Hin. }
  destruct x as [[cx sx] ix]. simpl in *.
  split; [exact Hlook|]. split; [exact Hsc|]. split.
  - intros j c Hj. destruct (Hother j c Hj) as [-> | Hout].
    + rewrite Hlook in Hj. injection Hj as <-. rewrite Hsc. apply Qle_refl.
    + apply outranks_score_le in Hout. exact Hout.
  - intros j c Hlt Hj. destruct (Hother j c Hj) as [-> | [Hout | [_ Hout]]].
    + lia.
    + exact Hout.
    + simpl in Hout. lia.
Qed.

(** X6.  The first suggestion of [process.extract] is the best candidate,
    the one [find_best_match] weighs against the cutoff, with the same score
    and position; no later suggestion scores higher, and no position of the
    candidate list is suggested twice. *)
Theorem extract_head_is_best query choices b limit :
  is_best query choices b ->
  exists rest,
    extract query choices (S limit) = b :: rest /\
    Forall (fun e => (snd (fst e) <= snd (fst b))%Q) rest /\
    NoDup (map snd (b :: rest)).
Proof.
  intros Hb. unfold App.extract.
  destruct (sort_ranked (scored_from query choices 0)) as [|x ranking] eqn:Hrank.
  - exfalso.
    pose proof (Permutation_length (sort_ranked_perm (scored_from query choices 0))) as Hlen.
    rewrite Hrank, length_scored_from in Hlen.
    destruct b as [[c sc] i]. destruct Hb as (Hi & _).
    apply lookup_lt_Some in Hi. simpl in Hlen. lia.
  - pose proof (ranking_head_best query choices x ranking Hrank) as Hx.
    rewrite (is_best_unique query choices b x Hb Hx).
    exists (firstn limit ranking). split; [reflexivity|].
    pose proof (sort_scored_sorted WRatio query choices 0) as Hsorted.
    pose proof (sort_ranked_perm (scored_from query choices 0)) as Hperm.
    rewrite Hrank in Hsorted, Hperm.
    split.
    + apply StronglySorted_cons in Hsorted as [Hall _].
      apply Forall_take. eapply Forall_impl; [exact Hall|].
      intros e He. apply outranks_score_le, He.
    + assert (Hnd : NoDup (map snd (x :: ranking))).
      { rewrite Hperm, positions_scored_from. apply NoDup_ListNoDup, seq_NoDup. }
      eapply sublist_NoDup; [exact Hnd|].
      simpl. apply sublist_skip.
      apply (fmap_sublist (snd : string * Q * nat -> nat)), sublist_take.
Qed.

(** ** Adding a row, then reading the dataset *)

Lemma add_run (df : DataFrame) inp s :
  Str.strip (new_waste inp) <> "" ->
  add_new_waste_type df inp s =
  Ok (df_append df (new_row_of inp),
      {| file := Some (df_append df (new_row_of inp));
         drawn := drawn s ++ [st_success ("Added '" +:+ Str.strip (new_waste inp)
                      +:+ "' to dataset and saved to " +:+ DATA_CSV
                      +:+ ". Refresh page to see changes.")];
         calls := calls s |}).
Proof.
  intros Hname. apply truthy_true in Hname.
  unfold App.add_new_waste_type. rewrite Hname. reflexivity.
Qed.

Lemma df_append_lookup_old (df : DataFrame) new_row i r :
  df !! i = Some r ->
  df_append df new_row !! i
  = Some (reindex (columns df ∪ dom (fields new_row)) r).
Proof.
  intros Hi. unfold df_append.
  change (map (reindex (columns df ∪ dom (fields new_row))) (df ++ [new_row]))
    with (reindex (columns df ∪ dom (fields new_row)) <$> (df ++ [new_row])).
  rewrite list_lookup_fmap, lookup_app_l by (eapply lookup_lt_Some; eauto).
  rewrite Hi. reflexivity.
Qed.


Lemma df_append_lookup_inv (df : DataFrame) new_row k r' :
  (k < length df)%nat ->
  df_append df new_row !! k = Some r' ->
  exists r, df !! k = Some r /\ waste_type r' = waste_type r.
Proof.
  intros Hk Hlook.
  destruct (lookup_lt_is_Some_2 df k Hk) as [r Hr].
  rewrite (df_append_lookup_old df new_row k r Hr) in Hlook.
  injection Hlook as <-. exists r. split; [exact Hr | reflexivity].
Qed.

Lemma to_dict_field r key :
  key <> "Waste Type" -> to_dict r !! key = fields r !! key.
Proof. intros Hkey. unfold to_dict. apply lookup_insert_ne. congruence. Qed.

Lemma reindex_fields cols r :
  fields (reindex cols r) = fields r ∪ gset_to_gmap (VNum nan) cols.
Proof. reflexivity. Qed.


Lemma waste_row_of_appended_old (df : DataFrame) new_row j r s :
  df !! j = Some r ->
  (forall k r', (k < j)%nat -> df !! k = Some r' -> waste_type r' <> waste_type r) ->
  waste_row_of (df_append df new_row) (waste_type r) s =
  Ok (to_dict (reindex (columns df ∪ dom (fields new_row)) r), s).
Proof.
  intros Hj Hfirst.
  refine (waste_row_of_first (df_append df new_row) j
            (reindex (columns df ∪ dom (fields new_row)) r) s
            (df_append_lookup_old df new_row j r Hj) _).
  intros k r' Hk Hlook. simpl.
  assert (Hlt : (k < length df)%nat) by (apply lookup_lt_Some in Hj; lia).
  destruct (df_append_lookup_inv _ _ _ _ Hlt Hlook) as (r0 & Hr0 & ->).
  eapply Hfirst; eauto.
Qed.

(** X7.  A successful addition loses nothing: the frame written to the
    file has one row more, and every row that was there keeps its
    position, its name and each of its cells. *)
Theorem add_keeps_existing_rows (df : DataFrame) inp s :
  Str.strip (new_waste inp) <> "" ->
  exists s' df',
    add_new_waste_type df inp s = Ok (df', s') /\
    file s' = Some df' /\
    length df' = S (length df) /\
    forall i r, df !! i = Some r ->
      exists r', df' !! i = Some r' /\ waste_type r' = waste_type r /\
                 forall key v, fields r !! key = Some v -> fields r' !! key = Some v.
Proof.
  intros Hname. rewrite (add_run df inp s Hname).
  eexists _, _. split; [reflexivity|]. split; [reflexivity|]. split.
  - unfold df_append. rewrite length_map, length_app. simpl. lia.
  - intros i r Hi. eexists. split; [apply df_append_lookup_old, Hi|].
    split; [reflexivity|]. intros key v Hv. apply reindex_keeps, Hv.
Qed.



(** X10.  Names are not checked for duplicates: adding a waste type whose
    name is already in the dataset succeeds, and line 73 keeps answering
    with the row that was there first, all its cells intact; the added row
    sits last and is not the one read. *)
Theorem add_duplicate_name_shadowed (df : DataFrame) inp s j r :
  df !! j = Some r ->
  (forall k r', (k < j)%nat -> df !! k = Some r' -> waste_type r' <> waste_type r) ->
  Str.strip (new_waste inp) = waste_type r ->
  waste_type r <> "" ->
  exists s' df' d,
    add_new_waste_type df inp s = Ok (df', s') /\
    file s' = Some df' /\
    waste_list_of df' = waste_list_of df ++ [waste_type r] /\
    waste_row_of df' (waste_type r) s' = Ok (d, s') /\
    forall key v, to_dict r !! key = Some v -> d !! key = Some v.
Proof.
  intros Hj Hfirst Hsame Hname. rewrite <- Hsame in Hname.
  rewrite (add_run df inp s Hname).
  set (cols := columns df ∪ dom (fields (new_row_of inp))).
  eexists _, _, (to_dict (reindex cols r)).
  split; [reflexivity|]. split; [reflexivity|]. split; [|split].
  - rewrite df_append_names.
    destruct (new_row_fields float_of_str inp) as (-> & _). rewrite Hsame. reflexivity.
  - apply (waste_row_of_appended_old df _ j); assumption.
  - intros key v. unfold to_dict. simpl.
    destruct (decide (key = "Waste Type")) as [-> | Hkey].
    + rewrite !lookup_insert_eq. auto.
    + rewrite !lookup_insert_ne by congruence. apply lookup_union_Some_l.
Qed.

(** X11.  A yield left empty, or one that [float] rejects, does not stop
    the addition and raises nothing: the row is added with no number in
    "Yield_pct" (no such cell when the dataset has no such column, NaN
    when it has), and no error is drawn. *)
Theorem add_unusable_yield (df : DataFrame) inp s :
  Str.strip (new_waste inp) <> "" ->
  Str.strip (new_yield inp) = "" \/ float_of_str (Str.strip (new_yield inp)) = None ->
  exists s' df' r msg,
    add_new_waste_type df inp s = Ok (df', s') /\
    drawn s' = drawn s ++ [st_success msg] /\
    last df' = Some r /\
    waste_type r = Str.strip (new_waste inp) /\
    fields r !! "Yield_pct" =
      if decide ("Yield_pct" ∈ columns df) then Some (VNum nan) else None.
Proof.
  intros Hname Hyield. rewrite (add_run df inp s Hname).
  destruct (new_row_fields float_of_str inp) as (Hn & _).
  assert (Hy : fields (new_row_of inp) !! "Yield_pct" = None).
  { rewrite new_row_yield. destruct Hyield as [-> | ->]; [reflexivity|].
    destruct (Str.truthy (Str.strip (new_yield inp))); reflexivity. }
  eexists _, _, _, _. split; [reflexivity|]. split; [reflexivity|].
  split; [apply df_append_last|]. split; [exact Hn|].
  rewrite reindex_fields, lookup_union_r by exact Hy.
  destruct (decide ("Yield_pct" ∈ columns df)) as [Hin | Hout].
  - apply lookup_gset_to_gmap_Some. split; [|reflexivity].
    apply elem_of_union. left. exact Hin.
  - apply lookup_gset_to_gmap_None. intros [Hin | Hin]%elem_of_union; [contradiction|].
    apply elem_of_dom in Hin as [v Hv]. rewrite Hy in Hv. discriminate.
Qed.

(** X12.  Adding a row with a yield gives the rows that had no
    "Yield_pct" cell a NaN one: for such a row the yield percentage was
    40.0 before the addition and is NaN after it. *)
Theorem add_yield_blanks_older_rows (df : DataFrame) inp s i r x :
  df !! i = Some r ->
  fields r !! "Yield_pct" = None ->
  Str.strip (new_waste inp) <> "" ->
  Str.strip (new_yield inp) <> "" ->
  float_of_str (Str.strip (new_yield inp)) = Some x ->
  yield_pct_of (to_dict r) = 40%float /\
  exists s' df' r',
    add_new_waste_type df inp s = Ok (df', s') /\
    file s' = Some df' /\
    df' !! i = Some r' /\
    waste_type r' = waste_type r /\
    fields r' !! "Yield_pct" = Some (VNum nan) /\
    is_nan (yield_pct_of (to_dict r')) = true.
Proof.
  intros Hi Hnone Hname Hyield Hx. split.
  - unfold App.yield_pct_of. rewrite to_dict_field by discriminate.
    rewrite Hnone. reflexivity.
  - rewrite (add_run df inp s Hname).
    pose proof (new_row_yield float_of_str inp) as Hy.
    apply truthy_true in Hyield. rewrite Hyield, Hx in Hy. simpl in Hy.
    set (cols := columns df ∪ dom (fields (new_row_of inp))).
    assert (Hcell : fields (reindex cols r) !! "Yield_pct" = Some (VNum nan)).
    { rewrite reindex_fields, lookup_union_r by exact Hnone.
      apply lookup_gset_to_gmap_Some. split; [|reflexivity].
      apply elem_of_union. right. apply elem_of_dom. eauto. }
    eexists _, _, (reindex cols r).
    split; [reflexivity|]. split; [reflexivity|].
    split; [apply df_append_lookup_old, Hi|]. split; [reflexivity|].
    split; [exact Hcell|].
    unfold App.yield_pct_of. rewrite to_dict_field by discriminate.
    rewrite Hcell. reflexivity.
Qed.

(** ** White space and file names *)

Lemma drop_leading_all p1 p2 p3 (l : list ascii) :
  Forall (fun a => p1 a = true) l -> Str.drop_leading p1 p2 p3 l = [].
Proof.
  induction 1 as [|a l Ha _ IH]; simpl; [reflexivity|].
  rewrite Ha. exact IH.
Qed.

Lemma strip_white_space text :
  Forall (fun a => Str.is_space1 a = true) (list_ascii_of_string text) ->
  Str.strip text = "".
Proof.
  intros Hall. unfold Str.strip, Str.lstrip.
  rewrite (drop_leading_all _ _ _ _ Hall). reflexivity.
Qed.

(** X13.  A free text made of blanks, tabs, line ends and the other
    one-byte white space only counts as no text: with nothing picked the
    run shows the prompt and calls neither [process.extractOne] nor
    [process.extract]. *)
Theorem recommend_blank_text (df : DataFrame) inp s :
  selected inp = "" ->
  Forall (fun a => Str.is_space1 a = true) (list_ascii_of_string (user_text inp)) ->
  recommend df inp s =
  Ok (tt, {| file := file s;
             drawn := drawn s ++ [st_info "Type a waste name above to get a recommendation or select from the list."];
             calls := calls s |}).
Proof.
  intros Hsel Hall.
  unfold App.recommend, App.matching, App.recommendation, App.unmatched.
  rewrite Hsel, (strip_white_space _ Hall). reflexivity.
Qed.

(** X14.  The name put in the file name of the report has no space left:
    [replace(' ', '_')] keeps the length, leaves no space, and changes
    nothing in a name without spaces. *)
Theorem replace_space_no_space name :
  String.length (Str.replace_space name) = String.length name /\
  Forall (fun a => a <> " "%char) (list_ascii_of_string (Str.replace_space name)) /\
  (Forall (fun a => a <> " "%char) (list_ascii_of_string name) ->
   Str.replace_space name = name).
Proof.
  induction name as [|a name (IHlen & IHno & IHsame)]; simpl.
  - repeat split; constructor.
  - split; [rewrite IHlen; reflexivity|]. split.
    + constructor; [|exact IHno].
      destruct (Ascii.eqb a " ") eqn:Ha; [discriminate|].
      apply Ascii.eqb_neq, Ha.
    + intros Hall. apply Forall_cons in Hall as [Ha Hall].
      apply Ascii.eqb_neq in Ha. rewrite Ha, (IHsame Hall). reflexivity.
Qed.

(** ** The card at its edges *)

(** X15.  With a quantity that is not above zero (0.0, the default of the
    widget, included) the card shows the four fields and the download
    button only: no estimate, no note, and a report without the quantity
    lines. *)
Theorem card_without_quantity waste_row matched_type match_score inp s :
  Float.positive (qty inp) = false ->
  est_compost_of waste_row (qty inp) = None /\
  card waste_row matched_type match_score inp s =
  Ok (tt,
      {| file := file s;
         drawn := drawn s ++
           [ st_subheader_matched matched_type match_score;
             st_markdown ("**Best Use:** " +:+ str str_of_float (get waste_row "Best Use" (VStr "-")) +:+ "  ");
             st_markdown ("**Compost Time:** " +:+ str str_of_float (get waste_row "Compost Time" (VStr "-")) +:+ "  ");
             st_markdown ("**Nutrient Type:** " +:+ str str_of_float (get waste_row "Nutrient" (VStr "-")) +:+ "  ");
             st_markdown ("**Tips:** " +:+ str str_of_float (get waste_row "Tips" (VStr "-")));
             st_download_button "Download advice report (TXT)"
               (format_report str_of_float (now inp) waste_row None None)
               ("fert_advice_" +:+ Str.replace_space matched_type +:+ ".txt") ];
         calls := calls s |}).
Proof.
  intros Hqty.
  assert (Hest : est_compost_of waste_row (qty inp) = None).
  { unfold App.est_compost_of. rewrite Hqty, andb_false_r. reflexivity. }
  split; [exact Hest|].
  unfold App.card. rewrite Hest, Hqty. run.
  unfold log_widget. simpl. rewrite <- !app_assoc. reflexivity.
Qed.

Lemma positive_finite (x : float) :
  Float.positive x = true -> is_infinity x = false ->
  exists m e, Prim2SF x = S754_finite false m e.
Proof.
  unfold Float.positive, is_infinity.
  rewrite FloatAxioms.ltb_spec, FloatAxioms.eqb_spec, abs_spec.
  change (Prim2SF 0) with (S754_zero false).
  change (Prim2SF infinity) with (S754_infinity false).
  destruct (Prim2SF x) as [[|]|[|]| |[|] m e]; unfold SFltb, SFeqb; simpl;
    intros H1 H2; try discriminate.
  eauto.
Qed.

Lemma mul_zero (x : float) :
  Float.positive x = true -> is_infinity x = false -> (x * (0 / 100))%float = 0%float.
Proof.
  intros Hpos Hfin.
  destruct (positive_finite x Hpos Hfin) as (m & e & Hx).
  change (0 / 100)%float with 0%float.
  rewrite <- (SF2Prim_Prim2SF (x * 0)), mul_spec, Hx.
  reflexivity.
Qed.

(** X16.  A yield of 0 with a finite quantity above zero gives an estimate
    of 0.0 kg: the page shows it with the note, but the report drops the
    quantity lines, since a zero estimate counts as none. *)
Theorem card_zero_yield waste_row matched_type match_score inp s :
  Float.positive (qty inp) = true ->
  is_infinity (qty inp) = false ->
  yield_pct_of waste_row = 0%float ->
  est_compost_of waste_row (qty inp) = Some 0%float /\
  card waste_row matched_type match_score inp s =
  Ok (tt,
      {| file := file s;
         drawn := drawn s ++
           [ st_subheader_matched matched_type match_score;
             st_markdown ("**Best Use:** " +:+ str str_of_float (get waste_row "Best Use" (VStr "-")) +:+ "  ");
             st_markdown ("**Compost Time:** " +:+ str str_of_float (get waste_row "Compost Time" (VStr "-")) +:+ "  ");
             st_markdown ("**Nutrient Type:** " +:+ str str_of_float (get waste_row "Nutrient" (VStr "-")) +:+ "  ");
             st_markdown ("**Tips:** " +:+ str str_of_float (get waste_row "Tips" (VStr "-")));
             st_info ("Estimated compost output from " +:+ Float.format_2f (qty inp)
                      +:+ " kg input: **0.00 kg** (approx; yield "
                      +:+ str_of_float 0%float +:+ "%).");
             st_caption "Note: yield is a rough approximation; actual output depends on moisture and method.";
             st_download_button "Download advice report (TXT)"
               (format_report str_of_float (now inp) waste_row None None)
               ("fert_advice_" +:+ Str.replace_space matched_type +:+ ".txt") ];
         calls := calls s |}).
Proof.
  intros Hqty Hfin Hyield.
  assert (Hest : est_compost_of waste_row (qty inp) = Some 0%float).
  { unfold App.est_compost_of.
    rewrite Hqty, (positive_truthy _ Hqty), Hyield, (mul_zero _ Hqty Hfin).
    reflexivity. }
  split; [exact Hest|].
  unfold App.card. rewrite Hest, Hqty, Hyield. run.
  unfold log_widget. simpl. rewrite <- !app_assoc. reflexivity.
Qed.

(** ** Whole runs *)



End MoreProperties.

(** ** The further properties at the sample *)

Lemma sample_best_cow :
  is_best Sample.WRatio "Cow Man" Sample.names ("Cow Manure", Qmake 700 10, 1%nat).
Proof. apply extractOne_Some_best. vm_compute. reflexivity. Qed.

Lemma sample_best_rice :
  is_best Sample.WRatio "Rice" Sample.names ("Rice Husk", Qmake 400 9, 2%nat).
Proof. apply extractOne_Some_best. vm_compute. reflexivity. Qed.

Lemma sample_straw_fresh : "Straw" ∉ waste_list_of Sample.df.
Proof.
  intros H. repeat (apply elem_of_cons in H as [H | H]; [discriminate|]).
  apply elem_of_nil in H. exact H.
Qed.

Lemma find_best_match_result_witness :
  find_best_match Sample.WRatio "Cow Man" Sample.names 50%Q Sample.start =
    Ok ((Some "Cow Manure", Qmake 700 10),
        log_call (extractOne_call "Cow Man" Sample.names) Sample.start) /\
  "Cow Manure" ∈ Sample.names /\
  Qmake 700 10 = Sample.WRatio "Cow Man" "Cow Manure" /\
  (50 <= Qmake 700 10)%Q.
Proof.
  assert (H : find_best_match Sample.WRatio "Cow Man" Sample.names 50%Q Sample.start =
    Ok ((Some "Cow Manure", Qmake 700 10),
        log_call (extractOne_call "Cow Man" Sample.names) Sample.start))
    by (vm_compute; reflexivity).
  split; [exact H|].
  exact (proj1 (find_best_match_result Sample.WRatio _ _ _ _ _ _ _ H) "Cow Manure" eq_refl).
Defined.

Lemma waste_row_of_raises_iff_witness :
  ("Straw" ∉ waste_list_of Sample.df) /\
  waste_row_of Sample.df "Straw" Sample.start = Raise IndexError.
Proof.
  split; [exact sample_straw_fresh|].
  exact (proj2 (proj1 (waste_row_of_raises_iff Sample.df "Straw" Sample.start))
           sample_straw_fresh).
Defined.

Lemma recommend_free_text_matched_witness :
  selected Sample.type_cow = "" /\
  Str.strip (user_text Sample.type_cow) <> "" /\
  (50 <= Qmake 700 10)%Q /\
  exists j r,
    Sample.df !! j = Some r /\ waste_type r = "Cow Manure" /\
    (forall k r', (k < j)%nat -> Sample.df !! k = Some r' -> waste_type r' <> "Cow Manure") /\
    recommend Sample.WRatio Sample.float_of_str Sample.str_of_float Sample.df Sample.type_cow Sample.start =
    card Sample.float_of_str Sample.str_of_float (to_dict r) "Cow Manure" (Some (Qmake 700 10))
      Sample.type_cow
      (log_call (extractOne_call "Cow Man" (waste_list_of Sample.df)) Sample.start).
Proof.
  assert (H1 : selected Sample.type_cow = "") by reflexivity.
  assert (H2 : Str.strip (user_text Sample.type_cow) <> "") by discriminate.
  assert (H3 : (50 <= Qmake 700 10)%Q) by (unfold Qle; simpl; lia).
  assert (H4 : "Cow Manure" <> "") by discriminate.
  split; [exact H1|]. split; [exact H2|]. split; [exact H3|].
  exact (recommend_free_text_matched Sample.WRatio Sample.float_of_str Sample.str_of_float
           Sample.df Sample.type_cow Sample.start _ _ _ H1 H2 sample_best_cow H3 H4).
Defined.

Lemma recommend_free_text_unmatched_witness :
  selected Sample.type_rice = "" /\
  Str.strip (user_text Sample.type_rice) <> "" /\
  (Qmake 400 9 < 50)%Q /\
  extract Sample.WRatio "Rice" (waste_list_of Sample.df) 5 <> [] /\
  recommend Sample.WRatio Sample.float_of_str Sample.str_of_float Sample.df Sample.type_rice Sample.start =
  Ok (tt,
      {| file := file Sample.start;
         drawn := drawn Sample.start
           ++ st_warning "No confident match found. Try rephrasing or choose from the list."
           :: st_markdown "**Top suggestions:**"
           :: map (fun e => st_write_suggestion (fst (fst e)) (snd (fst e)))
                (extract Sample.WRatio "Rice" (waste_list_of Sample.df) 5);
         calls := calls Sample.start
           ++ [extractOne_call "Rice" (waste_list_of Sample.df);
               extract_call "Rice" (waste_list_of Sample.df) 5] |}).
Proof.
  assert (H1 : selected Sample.type_rice = "") by reflexivity.
  assert (H2 : Str.strip (user_text Sample.type_rice) <> "") by discriminate.
  assert (H3 : (Qmake 400 9 < 50)%Q) by (unfold Qlt; simpl; lia).
  split; [exact H1|]. split; [exact H2|]. split; [exact H3|].
  exact (recommend_free_text_unmatched Sample.WRatio Sample.float_of_str Sample.str_of_float
           Sample.df Sample.type_rice Sample.start _ _ _ H1 H2 sample_best_rice H3).
Defined.


Lemma extract_head_is_best_witness :
  exists rest,
    extract Sample.WRatio "Rice" Sample.names 5 = ("Rice Husk", Qmake 400 9, 2%nat) :: rest /\
    Forall (fun e => (snd (fst e) <= Qmake 400 9)%Q) rest /\
    NoDup (map snd (("Rice Husk", Qmake 400 9, 2%nat) :: rest)).
Proof.
  exact (extract_head_is_best Sample.WRatio "Rice" Sample.names _ 4 sample_best_rice).
Defined.

Lemma add_keeps_existing_rows_witness :
  Str.strip (new_waste Sample.add_straw) <> "" /\
  exists s' df',
    add_new_waste_type Sample.float_of_str Sample.df Sample.add_straw Sample.start = Ok (df', s') /\
    file s' = Some df' /\
    length df' = 6%nat.
Proof.
  assert (H : Str.strip (new_waste Sample.add_straw) <> "") by discriminate.
  split; [exact H|].
  destruct (add_keeps_existing_rows Sample.float_of_str Sample.df Sample.add_straw Sample.start H)
    as (s' & df' & Hrun & Hfile & Hlen & _).
  exists s', df'. repeat split; assumption.
Defined.



Lemma add_duplicate_name_shadowed_witness :
  Sample.df !! 1%nat = Some Sample.cow_manure /\
  Str.strip (new_waste Sample.add_cow) = waste_type Sample.cow_manure /\
  exists s' df' d,
    add_new_waste_type Sample.float_of_str Sample.df Sample.add_cow Sample.start = Ok (df', s') /\
    file s' = Some df' /\
    waste_list_of df' = waste_list_of Sample.df ++ ["Cow Manure"] /\
    waste_row_of df' "Cow Manure" s' = Ok (d, s') /\
    forall key v, to_dict Sample.cow_manure !! key = Some v -> d !! key = Some v.
Proof.
  assert (H1 : Sample.df !! 1%nat = Some Sample.cow_manure) by reflexivity.
  assert (H2 : forall k r', (k < 1)%nat -> Sample.df !! k = Some r' ->
                            waste_type r' <> waste_type Sample.cow_manure).
  { intros [|k] r' Hk Hr'; [|lia]. injection Hr' as <-. discriminate. }
  assert (H3 : Str.strip (new_waste Sample.add_cow) = waste_type Sample.cow_manure)
    by reflexivity.
  assert (H4 : waste_type Sample.cow_manure <> "") by discriminate.
  split; [exact H1|]. split; [exact H3|].
  exact (add_duplicate_name_shadowed Sample.float_of_str Sample.df Sample.add_cow
           Sample.start 1%nat Sample.cow_manure H1 H2 H3 H4).
Defined.

Lemma add_unusable_yield_witness :
  Str.strip (new_waste Sample.add_lots) <> "" /\
  Sample.float_of_str (Str.strip (new_yield Sample.add_lots)) = None /\
  exists s' df' r msg,
    add_new_waste_type Sample.float_of_str Sample.df Sample.add_lots Sample.start = Ok (df', s') /\
    drawn s' = drawn Sample.start ++ [st_success msg] /\
    last df' = Some r /\
    waste_type r = Str.strip (new_waste Sample.add_lots) /\
    fields r !! "Yield_pct" =
      if decide ("Yield_pct" ∈ columns Sample.df) then Some (VNum nan) else None.
Proof.
  assert (H1 : Str.strip (new_waste Sample.add_lots) <> "") by discriminate.
  assert (H2 : Sample.float_of_str (Str.strip (new_yield Sample.add_lots)) = None)
    by reflexivity.
  split; [exact H1|]. split; [exact H2|].
  exact (add_unusable_yield Sample.float_of_str Sample.df Sample.add_lots Sample.start
           H1 (or_intror H2)).
Defined.

Lemma add_yield_blanks_older_rows_witness :
  Sample.df !! 2%nat = Some Sample.rice_husk /\
  fields Sample.rice_husk !! "Yield_pct" = None /\
  yield_pct_of Sample.float_of_str (to_dict Sample.rice_husk) = 40%float /\
  exists s' df' r',
    add_new_waste_type Sample.float_of_str Sample.df Sample.add_straw Sample.start = Ok (df', s') /\
    file s' = Some df' /\
    df' !! 2%nat = Some r' /\
    waste_type r' = waste_type Sample.rice_husk /\
    fields r' !! "Yield_pct" = Some (VNum nan) /\
    is_nan (yield_pct_of Sample.float_of_str (to_dict r')) = true.
Proof.
  assert (H1 : Sample.df !! 2%nat = Some Sample.rice_husk) by reflexivity.
  assert (H2 : fields Sample.rice_husk !! "Yield_pct" = None) by reflexivity.
  assert (H3 : Str.strip (new_waste Sample.add_straw) <> "") by discriminate.
  assert (H4 : Str.strip (new_yield Sample.add_straw) <> "") by discriminate.
  assert (H5 : Sample.float_of_str (Str.strip (new_yield Sample.add_straw)) = Some 55%float)
    by reflexivity.
  split; [exact H1|]. split; [exact H2|].
  exact (add_yield_blanks_older_rows Sample.float_of_str Sample.df Sample.add_straw
           Sample.start 2%nat Sample.rice_husk 55%float H1 H2 H3 H4 H5).
Defined.

Lemma recommend_blank_text_witness :
  selected Sample.type_blank = "" /\
  Forall (fun a => Str.is_space1 a = true)
    (list_ascii_of_string (user_text Sample.type_blank)) /\
  recommend Sample.WRatio Sample.float_of_str Sample.str_of_float Sample.df Sample.type_blank Sample.start =
  Ok (tt, {| file := file Sample.start;
             drawn := drawn Sample.start ++ [st_info "Type a waste name above to get a recommendation or select from the list."];
             calls := calls Sample.start |}).
Proof.
  assert (H1 : selected Sample.type_blank = "") by reflexivity.
  assert (H2 : Forall (fun a => Str.is_space1 a = true)
                 (list_ascii_of_string (user_text Sample.type_blank)))
    by (repeat constructor).
  split; [exact H1|]. split; [exact H2|].
  exact (recommend_blank_text Sample.WRatio Sample.float_of_str Sample.str_of_float
           Sample.df Sample.type_blank Sample.start H1 H2).
Defined.

Lemma replace_space_no_space_witness :
  Forall (fun a => a <> " "%char) (list_ascii_of_string "Straw") /\
  Str.replace_space "Straw" = "Straw".
Proof.
  assert (H : Forall (fun a => a <> " "%char) (list_ascii_of_string "Straw"))
    by (repeat constructor; discriminate).
  split; [exact H|].
  exact (proj2 (proj2 (replace_space_no_space "Straw")) H).
Defined.

Lemma card_without_quantity_witness :
  Float.positive (qty Sample.pick_banana) = false /\
  est_compost_of Sample.float_of_str (to_dict Sample.banana_peels) (qty Sample.pick_banana) = None /\
  exists s',
    card Sample.float_of_str Sample.str_of_float (to_dict Sample.banana_peels)
      "Banana Peels" (Some 100%Q) Sample.pick_banana Sample.start = Ok (tt, s') /\
    length (drawn s') = 6%nat.
Proof.
  assert (H : Float.positive (qty Sample.pick_banana) = false) by reflexivity.
  destruct (card_without_quantity Sample.float_of_str Sample.str_of_float
              (to_dict Sample.banana_peels) "Banana Peels" (Some 100%Q)
              Sample.pick_banana Sample.start H) as [Hest Hcard].
  split; [exact H|]. split; [exact Hest|].
  eexists. split; [exact Hcard | reflexivity].
Defined.

Lemma card_zero_yield_witness :
  Float.positive (qty Sample.pick_cow) = true /\
  is_infinity (qty Sample.pick_cow) = false /\
  yield_pct_of Sample.float_of_str (to_dict Sample.wet_leaves) = 0%float /\
  est_compost_of Sample.float_of_str (to_dict Sample.wet_leaves) (qty Sample.pick_cow)
  = Some 0%float /\
  exists s',
    card Sample.float_of_str Sample.str_of_float (to_dict Sample.wet_leaves)
      "Wet Leaves" (Some 100%Q) Sample.pick_cow Sample.start = Ok (tt, s') /\
    length (drawn s') = 8%nat.
Proof.
  assert (H1 : Float.positive (qty Sample.pick_cow) = true) by reflexivity.
  assert (H2 : is_infinity (qty Sample.pick_cow) = false) by reflexivity.
  assert (H3 : yield_pct_of Sample.float_of_str (to_dict Sample.wet_leaves) = 0%float)
    by reflexivity.
  destruct (card_zero_yield Sample.float_of_str Sample.str_of_float
              (to_dict Sample.wet_leaves) "Wet Leaves" (Some 100%Q)
              Sample.pick_cow Sample.start H1 H2 H3) as [Hest Hcard].
  split; [exact H1|]. split; [exact H2|]. split; [exact H3|]. split; [exact Hest|].
  eexists. split; [exact Hcard | reflexivity].
Defined.


